(** * Orchestration core of the VIRA agent server (src/server.py)

    The development embeds the five workflow [run] coroutines of
    [src/server.py] and the start-up code of [main] as functions over an
    explicit application state (the shared capability registry
    [app.context.config.mcp.servers] and a trace of the calls made on
    agents), with the collaborators imported from the [mcp_agent] package
    (agent connection, model attachment, generation) taken as oracles.

    Logging calls ([logger.info]) are left out: they read no state that the
    properties below speak about and write none. *)

From Stdlib Require Import QArith Qcanon.
From stdpp Require Import gmap strings list numbers.

Local Open Scope string_scope.

(** ** Python-level results of awaited calls *)

(** What an awaited call can end with: a value, or a raised exception.
    Cancellation of the invocation is the exception [CancelledError] raised
    at the await point where the coroutine is suspended. *)
Inductive exn : Type :=
| CancelledError
| Exception (msg : string).

Inductive outcome (A : Type) : Type :=
| Returns (a : A)
| Raises (e : exn).
Arguments Returns {A} a.
Arguments Raises {A} e.

#[export] Instance exn_eq_dec : EqDecision exn.
Proof. solve_decision. Defined.

(** ** Capability registry: [context.config.mcp.servers] *)

(** One provider's settings.  [args] is the list of start-up arguments;
    [command] stands for the settings the program never reads or writes. *)
Record MCPServerSettings : Type := mkSettings {
  command : string;
  args : list string;
}.

Abbreviation Servers := (gmap string MCPServerSettings).

(** [name in context.config.mcp.servers] *)
Definition has (name : string) (servers : Servers) : bool :=
  match servers !! name with
  | Some _ => true
  | None => false
  end.

(** [settings.args.extend(extra)] *)
Definition extend (settings : MCPServerSettings) (extra : list string)
  : MCPServerSettings :=
  {| command := command settings; args := args settings ++ extra |}.

(** The statement that every mutating site of the source repeats,
<<
    if name in context.config.mcp.servers:
        context.config.mcp.servers[name].args.extend(extra)
>>
    always with [name = "filesystem"] and [extra = [os.getcwd()]]. *)
Definition augmentArgs (name : string) (extra : list string)
    (servers : Servers) : Servers :=
  match servers !! name with
  | Some settings => <[name := extend settings extra]> servers
  | None => servers
  end.

(** Start-up arguments of a provider, when it is in the registry. *)
Definition args_of (name : string) (servers : Servers) : option (list string) :=
  args <$> servers !! name.

(** Number of occurrences of [x] in an argument list. *)
Definition occurrences (x : string) (l : list string) : nat :=
  length (filter (λ y, y = x) l).

(** ** Agents and request parameters *)

(** [Agent(name=..., instruction=..., server_names=...)].  [server_names] is
    [None] where the constructor call passes no such keyword. *)
Record Agent : Type := mkAgent {
  name : string;
  instruction : string;
  server_names : option (list string);
}.

#[export] Instance Agent_eq_dec : EqDecision Agent.
Proof. solve_decision. Defined.

(** [ModelPreferences(intelligencePriority=..., costPriority=...,
    speedPriority=...)]; the decimal literals of the source are read as the
    rationals they denote. *)
Record ModelPreferences : Type := mkPrefs {
  intelligencePriority : Qc;
  costPriority : Qc;
  speedPriority : Qc;
}.

Record RequestParams : Type := mkParams {
  modelPreferences : ModelPreferences;
}.

(** [ParallelLLM(fan_in_agent=..., fan_out_agents=[...], ...)]; the model
    factory and the context, the same at the one place that builds a
    [ParallelLLM], are left out. *)
Record ParallelLLM : Type := mkParallelLLM {
  fan_in_agent : Agent;
  fan_out_agents : list Agent;
}.

(** Modelled from the spec: the declaration of [WorkflowResult] is imported
    from [mcp_agent.executor.workflow] and is not in the source; the spec's
    data model gives it as a tagged union of [success(value)] and
    [failure(kind, message)], and its error taxonomy lists the kinds.  The
    source only ever builds [WorkflowResult(value=...)], read as [success]. *)
Inductive FailureKind : Type :=
| UnknownWorkflow
| CapabilityUnavailable
| AlreadyAttached
| BackendFailure
| AggregationFailed
| NoCandidates.

Inductive WorkflowResult : Type :=
| success (value : string)
| failure (kind : FailureKind) (message : string).

#[export] Instance FailureKind_eq_dec : EqDecision FailureKind.
Proof. solve_decision. Defined.
#[export] Instance WorkflowResult_eq_dec : EqDecision WorkflowResult.
Proof. solve_decision. Defined.

(** ** Instruction and prompt texts, as written in the source *)

Definition planning_agent_instruction : string :=
  "You are VIRA's Planning Agent - an expert at breaking down complex tasks 
            into manageable, sequential steps. Your responsibilities:
            
            1. Analyze the task and understand requirements
            2. Break down into logical, executable steps
            3. Identify dependencies and prerequisites
            4. Estimate time and resources needed
            5. Create a detailed execution plan
            6. Monitor progress and adapt as needed
            
            Always provide structured, actionable plans with clear deliverables.".

Definition PlanningWorkflow_message (task_description : string) : string :=
  "Analyze this task and create a detailed execution plan: "
  ++ task_description
  ++ "
                
                Please provide:
                1. Task analysis and requirements
                2. Step-by-step execution plan
                3. Resource requirements
                4. Time estimates
                5. Success criteria
                6. Potential risks and mitigation strategies
                
                Format as a structured plan that can be executed autonomously.".

Definition research_agent_instruction : string :=
  "You are VIRA's Research Agent - an expert investigator and analyst.
            Your capabilities include:
            
            1. Comprehensive topic investigation
            2. Multi-source information gathering
            3. Critical analysis and synthesis
            4. Trend identification and pattern recognition
            5. Evidence-based conclusions
            6. Actionable insights generation
            
            Always provide thorough, well-sourced research with clear methodology and findings.".

Definition ResearchWorkflow_message (research_topic : string) : string :=
  "Conduct comprehensive research on: "
  ++ research_topic
  ++ "
                
                Please provide:
                1. Research methodology and approach
                2. Key findings and discoveries
                3. Analysis of current trends and developments
                4. Critical evaluation of sources and evidence
                5. Synthesized insights and conclusions
                6. Actionable recommendations
                7. Areas for further investigation
                
                Ensure the research is thorough, objective, and provides practical value.".

Definition development_prompt (task : string) (language : string) (requirements : string) : string :=
  "
        Development Task: "
  ++ task
  ++ "
        Programming Language: "
  ++ language
  ++ "
        Requirements: "
  ++ requirements
  ++ "
        
        Architect: Design the system architecture and technical specifications
        Developer: Implement the solution with clean, documented code
        Tester: Create comprehensive tests and quality assurance strategy
        Reviewer: Provide final code review and recommendations
        
        Deliver a complete, production-ready solution.
        ".

Definition architect_instruction : string :=
  "You are a Software Architect. Design system architecture, 
            define interfaces, and create technical specifications. Focus on scalability, 
            maintainability, and best practices.".

Definition developer_instruction : string :=
  "You are a Senior Developer. Write clean, efficient, well-documented code.
            Implement the architecture specifications with proper error handling, logging, 
            and following language-specific best practices.".

Definition tester_instruction : string :=
  "You are a QA Engineer. Create comprehensive test suites,
            identify edge cases, and ensure code quality. Write unit tests, integration tests,
            and provide testing strategies.".

Definition reviewer_instruction : string :=
  "You are a Code Reviewer. Analyze code for quality, security,
            performance, and maintainability. Provide constructive feedback and ensure
            adherence to coding standards and best practices.".

Definition vira_orchestrator_instruction : string :=
  "You are VIRA's Master Orchestrator - the central intelligence that coordinates
            all specialized agents to execute complex projects. Your responsibilities:
            
            1. Project analysis and requirement gathering
            2. Agent selection and task delegation
            3. Workflow coordination and dependency management
            4. Progress monitoring and quality assurance
            5. Integration of results from multiple agents
            6. Final project delivery and documentation
            
            You have access to Planning, Research, and Development agents. Coordinate their efforts
            to deliver exceptional results that exceed user expectations.".

Definition VIRAOrchestrationWorkflow_message (project_description : string) (project_type : string) (priority : string) : string :=
  "Execute this complex project with full agent coordination:
                
                Project: "
  ++ project_description
  ++ "
                Type: "
  ++ project_type
  ++ "
                Priority: "
  ++ priority
  ++ "
                
                As the VIRA Orchestrator, coordinate the execution by:
                1. Breaking down the project into phases
                2. Determining which specialized agents to involve
                3. Managing dependencies between tasks
                4. Ensuring quality and integration
                5. Delivering comprehensive results
                
                Available specialized capabilities:
                - Planning Agent: Task decomposition and execution planning
                - Research Agent: Investigation and analysis
                - Development Team: Architecture, coding, testing, and review
                
                Provide a complete project execution with all phases coordinated.".

Definition claude_code_specialist_instruction : string :=
  "You are VIRA's Claude Code Integration Specialist. You excel at:
            
            1. Repository analysis and code review
            2. Automated refactoring and optimization
            3. Git workflow management
            4. Project structure improvements
            5. Code generation and documentation
            6. Development workflow automation
            
            You work seamlessly with Claude Code CLI to provide advanced development capabilities
            that go beyond simple code execution to full repository management.".

Definition ClaudeCodeIntegrationWorkflow_message (operation : string) (target : string) (prompt : string) : string :=
  "Execute Claude Code integration for repository operations:
                
                Operation: "
  ++ operation
  ++ "
                Target: "
  ++ target
  ++ "
                Prompt: "
  ++ prompt
  ++ "
                
                As the Claude Code specialist, provide:
                1. Analysis of the target repository/files
                2. Recommended Claude Code commands
                3. Step-by-step execution plan
                4. Expected outcomes and benefits
                5. Integration with development workflow
                6. Quality assurance and validation steps
                
                Ensure seamless integration between VIRA's intelligence and Claude Code's capabilities.".

(** ** Application state, collaborators and the coroutine monad *)

(** Calls made on agents and on the models attached to them, in the order
    in which the program makes them. *)
Inductive event : Type :=
| Aenter (agent : string)
| AttachLLM (agent : string)
| GenerateStr (agent : string) (message : string)
| Aexit (agent : string) (exc : option exn)
| ParallelGenerateStr (fan_in : string) (fan_out : list string) (message : string).

#[export] Instance event_eq_dec : EqDecision event.
Proof. solve_decision. Defined.

(** The state the coroutines act on: the process-wide registry and the
    trace of calls. *)
Record AppState : Type := mkState {
  servers : Servers;
  trace : list event;
}.

(** The collaborators, none of which is in the source: the working
    directory of the process, the agent's connection scope
    ([__aenter__], [__aexit__], whose result tells whether a raised
    exception is suppressed), model attachment, generation, and the
    generation of a [ParallelLLM]. *)
Record World : Type := mkWorld {
  getcwd : string;
  aenter : Agent → outcome unit;
  attach_llm : Agent → outcome unit;
  generate_str : Agent → string → RequestParams → outcome string;
  aexit : Agent → option exn → outcome bool;
  parallel_generate_str : ParallelLLM → string → outcome string;
}.

Definition M (A : Type) : Type := AppState → outcome A * AppState.

#[export] Instance M_ret : MRet M := λ A a st, (Returns a, st).

#[export] Instance M_bind : MBind M := λ A B f m st,
  match m st with
  | (Returns a, st') => f a st'
  | (Raises e, st') => (Raises e, st')
  end.

Definition emit (ev : event) : M unit := λ st,
  (Returns tt, {| servers := servers st; trace := trace st ++ [ev] |}).

Definition await {A : Type} (o : outcome A) : M A := λ st, (o, st).

Definition get_servers : M Servers := λ st, (Returns (servers st), st).

Definition modify_servers (f : Servers → Servers) : M unit := λ st,
  (Returns tt, {| servers := f (servers st); trace := trace st |}).

(** [dict.get(key, default)] on a dictionary with text keys and values. *)
Definition dict_get (d : gmap string string) (key default : string) : string :=
  match d !! key with
  | Some v => v
  | None => default
  end.

Section Workflows.
Context (W : World).

Definition Agent_aenter (a : Agent) : M unit :=
  emit (Aenter (name a));; await (aenter W a).

Definition Agent_aexit (a : Agent) (exc : option exn) : M bool :=
  emit (Aexit (name a) exc);; await (aexit W a exc).

(** [llm = await agent.attach_llm(AnthropicAugmentedLLM)]: the model
    bound to [a], identified with [a]. *)
Definition Agent_attach_llm (a : Agent) : M Agent :=
  emit (AttachLLM (name a));; await (attach_llm W a);; mret a.

Definition llm_generate_str (llm : Agent) (message : string)
    (request_params : RequestParams) : M string :=
  emit (GenerateStr (name llm) message);;
  await (generate_str W llm message request_params).

Definition ParallelLLM_generate_str (p : ParallelLLM) (message : string)
    : M string :=
  emit (ParallelGenerateStr (name (fan_in_agent p))
          (name <$> fan_out_agents p) message);;
  await (parallel_generate_str W p message).

(** [async with a: body], for a [body] that ends in [return] and a block
    that is the last statement of its coroutine.  The coroutine returns
    [Some v] when the body returns [v], and [None] (it falls off its end)
    when the body raises and [__aexit__] suppresses the exception.
    [__aexit__] is not called when [__aenter__] raises. *)
Definition async_with {A : Type} (a : Agent) (body : M A) : M (option A) :=
  λ st,
  match Agent_aenter a st with
  | (Raises e, st1) => (Raises e, st1)
  | (Returns _, st1) =>
      match body st1 with
      | (Returns v, st2) =>
          match Agent_aexit a None st2 with
          | (Returns _, st3) => (Returns (Some v), st3)
          | (Raises e', st3) => (Raises e', st3)
          end
      | (Raises e, st2) =>
          match Agent_aexit a (Some e) st2 with
          | (Returns true, st3) => (Returns None, st3)
          | (Returns false, st3) => (Raises e, st3)
          | (Raises e', st3) => (Raises e', st3)
          end
      end
  end.

(** [["filesystem"] if "filesystem" in context.config.mcp.servers else []] *)
Definition filesystem_if_present (servers : Servers) : list string :=
  if has "filesystem" servers then ["filesystem"] else [].

(** The first statements of four of the workflows and of [main]. *)
Definition add_cwd_to_filesystem : M unit :=
  modify_servers (augmentArgs "filesystem" [getcwd W]).

(** *** PlanningWorkflow *)

Definition planning_agent (servers : Servers) : Agent :=
  {| name := "planning_agent";
     instruction := planning_agent_instruction;
     server_names := Some (filesystem_if_present servers) |}.

Definition PlanningWorkflow_run (task_description : string)
    : M (option WorkflowResult) :=
  add_cwd_to_filesystem;;
  servers ← get_servers;
  let planning_agent := planning_agent servers in
  async_with planning_agent (
    llm ← Agent_attach_llm planning_agent;
    plan_result ← llm_generate_str llm
      (PlanningWorkflow_message task_description)
      {| modelPreferences :=
           {| intelligencePriority := Q2Qc (8 # 10);
              costPriority := Q2Qc (1 # 10);
              speedPriority := Q2Qc (1 # 10) |} |};
    mret (success plan_result)).

(** *** ResearchWorkflow *)

Definition research_agent (servers : Servers) : Agent :=
  let available_servers := if has "fetch" servers then ["fetch"] else [] in
  {| name := "research_agent";
     instruction := research_agent_instruction;
     server_names := Some available_servers |}.

Definition ResearchWorkflow_run (research_topic : string)
    : M (option WorkflowResult) :=
  servers ← get_servers;
  let research_agent := research_agent servers in
  async_with research_agent (
    llm ← Agent_attach_llm research_agent;
    research_result ← llm_generate_str llm
      (ResearchWorkflow_message research_topic)
      {| modelPreferences :=
           {| intelligencePriority := Q2Qc (9 # 10);
              costPriority := Q2Qc (5 # 100);
              speedPriority := Q2Qc (5 # 100) |} |};
    mret (success research_result)).

(** *** CodeDevelopmentWorkflow *)

(** The three locals read from the request:
    [task], [language], [requirements]. *)
Definition CodeDevelopmentWorkflow_fields (dev_request : gmap string string)
    : string * string * string :=
  (dict_get dev_request "task" "Code development task",
   dict_get dev_request "language" "python",
   dict_get dev_request "requirements" "Standard best practices").

Definition architect_agent (servers : Servers) : Agent :=
  {| name := "architect";
     instruction := architect_instruction;
     server_names := Some (filesystem_if_present servers) |}.

Definition developer_agent (servers : Servers) : Agent :=
  {| name := "developer";
     instruction := developer_instruction;
     server_names := Some (filesystem_if_present servers) |}.

Definition tester_agent (servers : Servers) : Agent :=
  {| name := "tester";
     instruction := tester_instruction;
     server_names := Some (filesystem_if_present servers) |}.

Definition reviewer_agent : Agent :=
  {| name := "reviewer";
     instruction := reviewer_instruction;
     server_names := None |}.

Definition parallel_dev (servers : Servers) : ParallelLLM :=
  {| fan_in_agent := reviewer_agent;
     fan_out_agents :=
       [architect_agent servers; developer_agent servers;
        tester_agent servers] |}.

Definition CodeDevelopmentWorkflow_run (dev_request : gmap string string)
    : M (option WorkflowResult) :=
  let '(task, language, requirements) :=
    CodeDevelopmentWorkflow_fields dev_request in
  add_cwd_to_filesystem;;
  servers ← get_servers;
  let parallel_dev := parallel_dev servers in
  result ← ParallelLLM_generate_str parallel_dev
    (development_prompt task language requirements);
  mret (Some (success result)).

(** *** VIRAOrchestrationWorkflow *)

(** [project_description], [project_type], [priority].  The request is a
    [Dict[str, Any]] in the source; its values are only ever formatted
    into the prompt and are taken as the texts they format to. *)
Definition VIRAOrchestrationWorkflow_fields
    (project_request : gmap string string) : string * string * string :=
  (dict_get project_request "description" "Complex project",
   dict_get project_request "type" "general",
   dict_get project_request "priority" "medium").

(** [available_servers] after the two conditionals (the first of which
    also holds the registry update, see [VIRAOrchestrationWorkflow_run]). *)
Definition VIRA_available_servers (servers : Servers) : list string :=
  (if has "filesystem" servers then ["filesystem"] else [])
  ++ (if has "fetch" servers then ["fetch"] else []).

Definition orchestrator_agent (servers : Servers) : Agent :=
  {| name := "vira_orchestrator";
     instruction := vira_orchestrator_instruction;
     server_names := Some (VIRA_available_servers servers) |}.

(** The registry update stands in the branch that appends "filesystem" to
    [available_servers]; it does not change which names the registry
    holds, so the update is done first and the list computed after. *)
Definition VIRAOrchestrationWorkflow_run
    (project_request : gmap string string) : M (option WorkflowResult) :=
  let '(project_description, project_type, priority) :=
    VIRAOrchestrationWorkflow_fields project_request in
  add_cwd_to_filesystem;;
  servers ← get_servers;
  let orchestrator_agent := orchestrator_agent servers in
  async_with orchestrator_agent (
    llm ← Agent_attach_llm orchestrator_agent;
    orchestration_result ← llm_generate_str llm
      (VIRAOrchestrationWorkflow_message
         project_description project_type priority)
      {| modelPreferences :=
           {| intelligencePriority := Q2Qc (9 # 10);
              costPriority := Q2Qc (5 # 100);
              speedPriority := Q2Qc (5 # 100) |} |};
    mret (success orchestration_result)).

(** *** ClaudeCodeIntegrationWorkflow *)

(** [operation], [target], [prompt]. *)
Definition ClaudeCodeIntegrationWorkflow_fields
    (code_request : gmap string string) : string * string * string :=
  (dict_get code_request "operation" "analyze",
   dict_get code_request "target" ".",
   dict_get code_request "prompt" "Analyze and improve this code").

Definition claude_code_agent (servers : Servers) : Agent :=
  {| name := "claude_code_specialist";
     instruction := claude_code_specialist_instruction;
     server_names := Some (filesystem_if_present servers) |}.

Definition ClaudeCodeIntegrationWorkflow_run
    (code_request : gmap string string) : M (option WorkflowResult) :=
  let '(operation, target, prompt) :=
    ClaudeCodeIntegrationWorkflow_fields code_request in
  add_cwd_to_filesystem;;
  servers ← get_servers;
  let claude_code_agent := claude_code_agent servers in
  async_with claude_code_agent (
    llm ← Agent_attach_llm claude_code_agent;
    integration_result ← llm_generate_str llm
      (ClaudeCodeIntegrationWorkflow_message operation target prompt)
      {| modelPreferences :=
           {| intelligencePriority := Q2Qc (8 # 10);
              costPriority := Q2Qc (0 # 10);
              speedPriority := Q2Qc (2 # 10) |} |};
    mret (success integration_result)).

(** *** main *)

(** What [main] does to the state before it hands the application to the
    server of the framework. *)
Definition main_configure : M unit := add_cwd_to_filesystem.

(** *** The five workflows as one family *)

Inductive Workflow : Type :=
| PlanningWorkflow
| ResearchWorkflow
| CodeDevelopmentWorkflow
| VIRAOrchestrationWorkflow
| ClaudeCodeIntegrationWorkflow.

(** [Workflow[str]] or [Workflow[Dict[str, ...]]] *)
Definition input_type (w : Workflow) : Type :=
  match w with
  | PlanningWorkflow | ResearchWorkflow => string
  | CodeDevelopmentWorkflow | VIRAOrchestrationWorkflow
  | ClaudeCodeIntegrationWorkflow => gmap string string
  end.

Definition run (w : Workflow) : input_type w → M (option WorkflowResult) :=
  match w with
  | PlanningWorkflow => PlanningWorkflow_run
  | ResearchWorkflow => ResearchWorkflow_run
  | CodeDevelopmentWorkflow => CodeDevelopmentWorkflow_run
  | VIRAOrchestrationWorkflow => VIRAOrchestrationWorkflow_run
  | ClaudeCodeIntegrationWorkflow => ClaudeCodeIntegrationWorkflow_run
  end.

(** The agent a workflow opens a connection scope on ([async with]);
    CodeDevelopmentWorkflow opens none itself. *)
Definition scoped_agent (w : Workflow) (servers : Servers) : option Agent :=
  match w with
  | PlanningWorkflow => Some (planning_agent servers)
  | ResearchWorkflow => Some (research_agent servers)
  | CodeDevelopmentWorkflow => None
  | VIRAOrchestrationWorkflow => Some (orchestrator_agent servers)
  | ClaudeCodeIntegrationWorkflow => Some (claude_code_agent servers)
  end.

End Workflows.

#[export] Instance Workflow_eq_dec : EqDecision Workflow.
Proof. solve_decision. Defined.

(** ** Model Selector *)

Module ModelSelector.

(** Modelled from the spec: the Model Selector is part of the imported
    [mcp_agent] package and is not in the source, which only builds
    [ModelPreferences] values.  A variant carries three scores on a common
    scale; [variantName] is its identity. *)
Record ModelVariant : Type := mkVariant {
  variantName : string;
  capabilityScore : Qc;
  costScore : Qc;
  latencyScore : Qc;
}.

#[export] Instance ModelVariant_eq_dec : EqDecision ModelVariant.
Proof. solve_decision. Defined.

(** Modelled from the spec: the weighted score of the Model Selector,
    intelligencePriority x capabilityScore - costPriority x costScore
    - speedPriority x latencyScore. *)
Definition weighted_score (p : ModelPreferences) (v : ModelVariant) : Qc :=
  (intelligencePriority p * capabilityScore v
   - costPriority p * costScore v
   - speedPriority p * latencyScore v)%Qc.

(** Modelled from the spec: the scan of the Model Selector over the
    candidates in declaration order; the candidate held so far is given up
    only for one with a strictly greater score, so that the first declared
    wins a tie. *)
Fixpoint best_of (p : ModelPreferences) (best : ModelVariant)
    (rest : list ModelVariant) : ModelVariant :=
  match rest with
  | [] => best
  | v :: rest' =>
      if decide (weighted_score p best < weighted_score p v)%Qc
      then best_of p v rest'
      else best_of p best rest'
  end.

(** Modelled from the spec: [select(preferences, candidates)] of the Model
    Selector, which fails with [NoCandidates] on the empty list. *)
Definition select (p : ModelPreferences) (candidates : list ModelVariant)
    : FailureKind + ModelVariant :=
  match candidates with
  | [] => inl NoCandidates
  | v :: rest => inr (best_of p v rest)
  end.

End ModelSelector.

(** ** Parallel fan-out/fan-in aggregator *)

Module Aggregator.

(** What an executor run is given: the task framing text, or the composite
    of the fan-out outputs, each tagged with its agent's name. *)
Inductive Prompt : Type :=
| Text (s : string)
| Composite (parts : list (string * string)).

(** The executor runs an aggregation starts, in order. *)
Inductive started : Type :=
| FanOutRun (agent : string) (prompt : string)
| FanInRun (agent : string) (parts : list (string * string)).

#[export] Instance Prompt_eq_dec : EqDecision Prompt.
Proof. solve_decision. Defined.
#[export] Instance started_eq_dec : EqDecision started.
Proof. solve_decision. Defined.

Record ParallelTaskSet : Type := mkTaskSet {
  fan_out : list (Agent * string);
  fan_in : Agent;
}.

(** The task set of a [ParallelLLM] of the source on a message: every
    fan-out agent gets the same task framing text. *)
Definition task_set (p : ParallelLLM) (message : string) : ParallelTaskSet :=
  {| fan_out := (λ a, (a, message)) <$> fan_out_agents p;
     fan_in := fan_in_agent p |}.

Section Aggregate.
(** The Single-Agent Executor, which answers every run with a
    [WorkflowResult]; the model backend behind it is a collaborator. *)
Context (executor : Agent → Prompt → WorkflowResult).

(** The output of one fan-out run, tagged with the agent's name, when the
    run succeeded. *)
Definition tagged_output (run : Agent * string) : option (string * string) :=
  match executor run.1 (Text run.2) with
  | success out => Some (name run.1, out)
  | failure _ _ => None
  end.

(** Modelled from the spec: the algorithm of the Parallel Fan-Out/Fan-In
    Aggregator, which the source uses through [ParallelLLM.generate_str] of
    the imported [mcp_agent] package.  All fan-out runs are started; the
    outputs of the successful ones are gathered in the order of the fan-out
    sequence; if there is none the aggregation fails with
    [AggregationFailed], otherwise the fan-in agent is run on the composite
    and its result is the aggregation's.  The second component lists the
    runs started. *)
Definition aggregate (ts : ParallelTaskSet) : WorkflowResult * list started :=
  let fan_out_runs := (λ run, FanOutRun (name run.1) run.2) <$> fan_out ts in
  match omap tagged_output (fan_out ts) with
  | [] => (failure AggregationFailed "all fan-out runs failed", fan_out_runs)
  | (_ :: _) as parts =>
      (executor (fan_in ts) (Composite parts),
       (fan_out_runs ++ [FanInRun (name (fan_in ts)) parts])%list)
  end.

(** Whether a fan-out run succeeds. *)
Definition succeeded (run : Agent * string) : bool :=
  match executor run.1 (Text run.2) with
  | success _ => true
  | failure _ _ => false
  end.

Definition fan_in_invoked (log : list started) : bool :=
  existsb (λ r, match r with FanInRun _ _ => true | FanOutRun _ _ => false end)
    log.

End Aggregate.
End Aggregator.

(** ** Workflow registry and runner *)

Module Runner.

(** The registration table: the classes under [@app.workflow], by class
    name (the keys that [main] reads from [agent_app.workflows]). *)
Definition registered : gmap string Workflow :=
  list_to_map
    [("PlanningWorkflow", PlanningWorkflow);
     ("ResearchWorkflow", ResearchWorkflow);
     ("CodeDevelopmentWorkflow", CodeDevelopmentWorkflow);
     ("VIRAOrchestrationWorkflow", VIRAOrchestrationWorkflow);
     ("ClaudeCodeIntegrationWorkflow", ClaudeCodeIntegrationWorkflow)].

(** A structured input: a text or a dictionary of texts. *)
Inductive Input : Type :=
| InText (s : string)
| InDict (d : gmap string string).

(** The input as the workflow's [run] takes it, when it has that shape. *)
Definition structurally_valid (w : Workflow) (i : Input)
    : option (input_type w) :=
  match w, i with
  | PlanningWorkflow, InText s => Some s
  | ResearchWorkflow, InText s => Some s
  | CodeDevelopmentWorkflow, InDict d => Some d
  | VIRAOrchestrationWorkflow, InDict d => Some d
  | ClaudeCodeIntegrationWorkflow, InDict d => Some d
  | _, _ => None
  end.

(** Modelled from the spec: [invoke(name, input)] of the Workflow Runner;
    the dispatch on the workflow name is done by the server of the imported
    [mcp_agent] package and is not in the source.  It looks up the handler,
    fails with [UnknownWorkflow] if absent, and otherwise executes the
    handler.  The spec gives the contract for structurally valid input
    only; an input of the wrong shape is answered with an exception here. *)
Definition invoke (W : World) (workflowName : string) (input : Input)
    : M (option WorkflowResult) :=
  match registered !! workflowName with
  | None => mret (Some (failure UnknownWorkflow workflowName))
  | Some w =>
      match structurally_valid w input with
      | Some x => run W w x
      | None => await (Raises (Exception "structurally invalid input"))
      end
  end.

End Runner.

(** ** Concrete registries and collaborators used by the examples *)

(** A registry with a filesystem provider started on [/srv] and a fetch
    provider. *)
Definition two_servers : Servers :=
  <["filesystem" := mkSettings "npx" ["/srv"]]>
    (<["fetch" := mkSettings "uvx" ["mcp-server-fetch"]]> ∅).

(** A registry without any provider. *)
Definition no_servers : Servers := ∅.

(** Collaborators that all answer: the process runs in [/tmp/x]. *)
Definition calm_world : World :=
  {| getcwd := "/tmp/x";
     aenter := λ _, Returns tt;
     attach_llm := λ _, Returns tt;
     generate_str := λ _ _ _, Returns "generated";
     aexit := λ _ _, Returns false;
     parallel_generate_str := λ _ _, Returns "reviewed" |}.

(** As [calm_world], with a model backend that fails on every
    generation. *)
Definition failing_backend : World :=
  {| getcwd := "/tmp/x";
     aenter := λ _, Returns tt;
     attach_llm := λ _, Returns tt;
     generate_str := λ _ _ _, Raises (Exception "backend failure");
     aexit := λ _ _, Returns false;
     parallel_generate_str := λ _ _, Raises (Exception "backend failure") |}.

(** As [calm_world], with the invocation cancelled while it waits for the
    generation. *)
Definition cancelled_mid_flight : World :=
  {| getcwd := "/tmp/x";
     aenter := λ _, Returns tt;
     attach_llm := λ _, Returns tt;
     generate_str := λ _ _ _, Raises CancelledError;
     aexit := λ _ _, Returns false;
     parallel_generate_str := λ _ _, Raises CancelledError |}.

Definition initial (servers : Servers) : AppState :=
  {| servers := servers; trace := [] |}.



(** ** Predicates on coroutines used by the statements *)

(** [m] leaves the registry as it finds it, whatever its outcome. *)
Definition keeps_registry {A : Type} (m : M A) : Prop :=
  ∀ st, servers (m st).2 = servers st.


(** An executor on which the architect's run fails on the backend, every
    other fan-out run succeeds and the fan-in run merges. *)
Definition architect_fails (a : Agent) (prompt : Aggregator.Prompt)
    : WorkflowResult :=
  match prompt with
  | Aggregator.Composite _ => success "merged"
  | Aggregator.Text _ =>
      if bool_decide (name a = "architect")
      then failure BackendFailure "backend failure"
      else success ("output of " ++ name a)
  end.

(** An executor on which every run fails on the backend. *)
Definition all_fail (a : Agent) (prompt : Aggregator.Prompt)
    : WorkflowResult :=
  failure BackendFailure "backend failure".

(** ** Definitions that follow the words of the specification *)

(** The scope the specification gives an agent: the requested names that
    the registry holds, in the order in which they are requested. *)
Definition scopeTo (requested : list string) (servers : Servers)
    : list string :=
  filter (λ n, n ∈ dom servers) requested.

(** The requests in which every key that a workflow reads is bound to the
    text that the workflow takes when the key is missing. *)
Definition CodeDevelopmentWorkflow_defaults : gmap string string :=
  <["task" := "Code development task"]>
    (<["language" := "python"]>
       (<["requirements" := "Standard best practices"]> ∅)).

Definition VIRAOrchestrationWorkflow_defaults : gmap string string :=
  <["description" := "Complex project"]>
    (<["type" := "general"]> (<["priority" := "medium"]> ∅)).

Definition ClaudeCodeIntegrationWorkflow_defaults : gmap string string :=
  <["operation" := "analyze"]>
    (<["target" := "."]>
       (<["prompt" := "Analyze and improve this code"]> ∅)).

(** ** Calls of one invocation, sequences of invocations, and [main]'s
    table of descriptions *)

(** Attachment of a model or a generation on it. *)
Definition is_model_call (ev : event) : bool :=
  match ev with
  | AttachLLM _ | GenerateStr _ _ => true
  | _ => false
  end.


(** The agent a call is made on; the fan-in agent for the generation of a
    [ParallelLLM]. *)
Definition event_agent (ev : event) : string :=
  match ev with
  | Aenter a | AttachLLM a | GenerateStr a _ | Aexit a _ => a
  | ParallelGenerateStr a _ _ => a
  end.

(** The calls that the block
<<
    async with a:
        llm = await a.attach_llm(...)
        text = await llm.generate_str(message=message, request_params=params)
        return WorkflowResult(value=text)
>>
    makes, as a function of what the collaborators answer. *)
Definition single_agent_calls (W : World) (a : Agent) (message : string)
    (params : RequestParams) : list event :=
  Aenter (name a) ::
  match aenter W a with
  | Raises _ => []
  | Returns _ =>
      AttachLLM (name a) ::
      match attach_llm W a with
      | Raises e => [Aexit (name a) (Some e)]
      | Returns _ =>
          GenerateStr (name a) message ::
          match generate_str W a message params with
          | Raises e => [Aexit (name a) (Some e)]
          | Returns _ => [Aexit (name a) None]
          end
      end
  end.

(** What [__aexit__] makes of an exception [e] raised in the block. *)
Definition after_raise (W : World) (a : Agent) (e : exn)
    : outcome (option WorkflowResult) :=
  match aexit W a (Some e) with
  | Returns true => Returns None
  | Returns false => Raises e
  | Raises e' => Raises e'
  end.

(** The outcome of the same block. *)
Definition single_agent_outcome (W : World) (a : Agent) (message : string)
    (params : RequestParams) : outcome (option WorkflowResult) :=
  match aenter W a with
  | Raises e => Raises e
  | Returns _ =>
      match attach_llm W a with
      | Raises e => after_raise W a e
      | Returns _ =>
          match generate_str W a message params with
          | Raises e => after_raise W a e
          | Returns text =>
              match aexit W a None with
              | Returns _ => Returns (Some (success text))
              | Raises e' => Raises e'
              end
          end
      end
  end.

(** One invocation: the collaborators as they answer during it (the working
    directory among them), the workflow and its input. *)
Record Invocation : Type := mkInvocation {
  inv_world : World;
  inv_workflow : Workflow;
  inv_input : input_type inv_workflow;
}.

Definition invoke_on (st : AppState) (i : Invocation)
    : outcome (option WorkflowResult) * AppState :=
  run (inv_world i) (inv_workflow i) (inv_input i) st.

(** The state after the invocations of [invs], one after the other, on the
    registry they share. *)
Definition state_after (invs : list Invocation) (st : AppState) : AppState :=
  foldl (λ st i, (invoke_on st i).2) st invs.

(** Whether an invocation is of a workflow that updates the registry. *)
Definition updates_registry (i : Invocation) : bool :=
  bool_decide (inv_workflow i ≠ ResearchWorkflow).

(** The dictionary [workflow_descriptions] of [main]. *)
Definition workflow_descriptions : gmap string string :=
  list_to_map
    [("PlanningWorkflow", "Task planning and execution coordination");
     ("ResearchWorkflow", "Autonomous research and analysis");
     ("CodeDevelopmentWorkflow", "End-to-end software development");
     ("VIRAOrchestrationWorkflow", "Multi-agent project coordination");
     ("ClaudeCodeIntegrationWorkflow",
      "Repository management and Claude Code integration")].

(** [description = workflow_descriptions.get(workflow_id,
    "Specialized workflow")] *)
Definition description (workflow_id : string) : string :=
  dict_get workflow_descriptions workflow_id "Specialized workflow".

(** The pairs of workflow id and description that the loop of [main] logs,
    for the ids of [agent_app.workflows] in their order. *)
Definition main_logged_descriptions (workflows : list string)
    : list (string * string) :=
  (λ workflow_id, (workflow_id, description workflow_id)) <$> workflows.

(** As [failing_backend], with an agent whose [__aexit__] suppresses the
    exception it is handed. *)
Definition suppressing_release : World :=
  {| getcwd := "/tmp/x";
     aenter := λ _, Returns tt;
     attach_llm := λ _, Returns tt;
     generate_str := λ _ _ _, Raises (Exception "backend failure");
     aexit := λ _ exc, Returns (bool_decide (exc ≠ None));
     parallel_generate_str := λ _ _, Raises (Exception "backend failure") |}.

(** As [calm_world], with an agent whose [__aexit__] raises. *)
Definition failing_release : World :=
  {| getcwd := "/tmp/x";
     aenter := λ _, Returns tt;
     attach_llm := λ _, Returns tt;
     generate_str := λ _ _ _, Returns "generated";
     aexit := λ _ _, Raises (Exception "shutdown failure");
     parallel_generate_str := λ _ _, Returns "reviewed" |}.



(** The working directories of the invocations of [invs] that update the
    registry, in the order of the invocations. *)
Definition appended_by (invs : list Invocation) : list string :=
  (λ i, getcwd (inv_world i)) <$> filter (λ i, updates_registry i) invs.


(** * Properties *)

(** ** The registry under [augmentArgs] *)

Lemma augmentArgs_lookup (name : string) (extra : list string)
    (servers : Servers) (n : string) :
  augmentArgs name extra servers !! n
  = if decide (n = name) then (λ s, extend s extra) <$> servers !! n
    else servers !! n.
Proof.
  unfold augmentArgs. case_decide as Hn.
  - subst n. destruct (servers !! name) as [s|] eqn:Hs.
    + by rewrite lookup_insert_eq.
    + by rewrite Hs.
  - destruct (servers !! name) as [s|] eqn:Hs; [|done].
    by rewrite lookup_insert_ne.
Qed.

Lemma augmentArgs_absent (name : string) (extra : list string)
    (servers : Servers) :
  servers !! name = None → augmentArgs name extra servers = servers.
Proof. intros H. unfold augmentArgs. by rewrite H. Qed.

Lemma has_augmentArgs (n name : string) (extra : list string)
    (servers : Servers) :
  has n (augmentArgs name extra servers) = has n servers.
Proof.
  unfold has. rewrite augmentArgs_lookup.
  case_decide; [|done]. by destruct (servers !! n).
Qed.

Lemma dom_augmentArgs (name : string) (extra : list string)
    (servers : Servers) :
  dom (augmentArgs name extra servers) = dom servers.
Proof.
  apply set_eq. intros n. rewrite !elem_of_dom, augmentArgs_lookup.
  case_decide; [|done]. by rewrite fmap_is_Some.
Qed.

Lemma args_of_augmentArgs (name : string) (extra : list string)
    (servers : Servers) :
  args_of name (augmentArgs name extra servers)
  = (λ a, a ++ extra)%list <$> args_of name servers.
Proof.
  unfold args_of. rewrite augmentArgs_lookup, decide_True by done.
  by destruct (servers !! name).
Qed.

Lemma args_of_iter_augmentArgs (name x : string) (servers : Servers) (n : nat) :
  args_of name (Nat.iter n (augmentArgs name [x]) servers)
  = (λ a, a ++ replicate n x)%list <$> args_of name servers.
Proof.
  induction n as [|n IH]; simpl.
  - destruct (args_of name servers); simpl; [|done]. by rewrite app_nil_r.
  - rewrite args_of_augmentArgs, IH.
    destruct (args_of name servers) as [a|]; simpl; [|done].
    f_equal. rewrite <- (assoc_L (++)%list). f_equal.
    change [x] with (replicate 1 x). rewrite <- replicate_add.
    by rewrite Nat.add_1_r.
Qed.

Lemma occurrences_app (x : string) (l k : list string) :
  occurrences x (l ++ k) = occurrences x l + occurrences x k.
Proof. unfold occurrences. by rewrite list.filter_app, length_app. Qed.

Lemma occurrences_replicate (x : string) (n : nat) :
  occurrences x (replicate n x) = n.
Proof.
  unfold occurrences. induction n as [|n IH]; [done|].
  simpl. rewrite filter_cons_True by done. simpl. by rewrite IH.
Qed.

(** ** Effects of the coroutine primitives on the registry *)

Section Effects.
Context (W : World).

Lemma keeps_registry_ret {A : Type} (a : A) : keeps_registry (mret a).
Proof. by intros st. Qed.

Lemma keeps_registry_await {A : Type} (o : outcome A) : keeps_registry (await o).
Proof. by intros st. Qed.

Lemma keeps_registry_emit (ev : event) : keeps_registry (emit ev).
Proof. by intros st. Qed.

Lemma keeps_registry_get : keeps_registry get_servers.
Proof. by intros st. Qed.

Lemma keeps_registry_bind {A B : Type} (m : M A) (k : A → M B) :
  keeps_registry m → (∀ a, keeps_registry (k a)) → keeps_registry (m ≫= k).
Proof.
  intros Hm Hk st. unfold mbind, M_bind. specialize (Hm st).
  destruct (m st) as [[a|e] st']; simpl in *; [|done].
  by rewrite Hk.
Qed.

Lemma keeps_registry_async_with {A : Type} (a : Agent) (body : M A) :
  keeps_registry body → keeps_registry (async_with W a body).
Proof.
  intros Hbody st. unfold async_with, Agent_aenter, Agent_aexit.
  unfold mbind, M_bind, emit, await. simpl.
  destruct (aenter W a) as [[]|e]; simpl; [|done].
  match goal with |- context [body ?s] =>
    specialize (Hbody s); destruct (body s) as [[v|e] st2] end;
    simpl in *.
  - destruct (aexit W a None) as [b|e]; simpl; done.
  - destruct (aexit W a (Some e)) as [[]|e']; simpl; done.
Qed.

Lemma registry_after_add_cwd {A : Type} (m : M A) (st : AppState) :
  keeps_registry m →
  servers ((add_cwd_to_filesystem W;; m) st).2
  = augmentArgs "filesystem" [getcwd W] (servers st).
Proof.
  intros Hm. unfold mbind, M_bind, add_cwd_to_filesystem, modify_servers.
  simpl. by rewrite Hm.
Qed.

Lemma keeps_registry_attach (a : Agent) : keeps_registry (Agent_attach_llm W a).
Proof.
  unfold Agent_attach_llm.
  repeat (apply keeps_registry_bind; [|intros ?]);
    auto using keeps_registry_emit, keeps_registry_await, keeps_registry_ret.
Qed.

Lemma keeps_registry_generate (llm : Agent) (message : string)
    (params : RequestParams) :
  keeps_registry (llm_generate_str W llm message params).
Proof.
  unfold llm_generate_str.
  apply keeps_registry_bind; [|intros ?];
    auto using keeps_registry_emit, keeps_registry_await.
Qed.

Lemma keeps_registry_parallel (p : ParallelLLM) (message : string) :
  keeps_registry (ParallelLLM_generate_str W p message).
Proof.
  unfold ParallelLLM_generate_str.
  apply keeps_registry_bind; [|intros ?];
    auto using keeps_registry_emit, keeps_registry_await.
Qed.

(** A single-agent run: attach, generate once, return the text. *)
Lemma keeps_registry_single_agent (a : Agent) (message : string)
    (params : RequestParams) :
  keeps_registry
    (async_with W a
       (llm ← Agent_attach_llm W a;
        text ← llm_generate_str W llm message params;
        mret (success text))).
Proof.
  apply keeps_registry_async_with.
  apply keeps_registry_bind; [apply keeps_registry_attach|intros llm].
  apply keeps_registry_bind; [apply keeps_registry_generate|intros text].
  apply keeps_registry_ret.
Qed.

(** The registry after a run of any workflow, whatever the outcome. *)
Lemma registry_after_run (w : Workflow) (x : input_type w) (st : AppState) :
  servers (run W w x st).2
  = if decide (w = ResearchWorkflow) then servers st
    else augmentArgs "filesystem" [getcwd W] (servers st).
Proof.
  destruct w; simpl in x |- *.
  - unfold PlanningWorkflow_run. apply registry_after_add_cwd.
    apply keeps_registry_bind; [apply keeps_registry_get|intros s].
    apply keeps_registry_single_agent.
  - unfold ResearchWorkflow_run.
    apply (keeps_registry_bind get_servers); [apply keeps_registry_get|].
    intros s. apply keeps_registry_single_agent.
  - unfold CodeDevelopmentWorkflow_run, CodeDevelopmentWorkflow_fields.
    apply registry_after_add_cwd.
    apply keeps_registry_bind; [apply keeps_registry_get|intros s].
    apply keeps_registry_bind; [apply keeps_registry_parallel|intros r].
    apply keeps_registry_ret.
  - unfold VIRAOrchestrationWorkflow_run, VIRAOrchestrationWorkflow_fields.
    apply registry_after_add_cwd.
    apply keeps_registry_bind; [apply keeps_registry_get|intros s].
    apply keeps_registry_single_agent.
  - unfold ClaudeCodeIntegrationWorkflow_run,
      ClaudeCodeIntegrationWorkflow_fields.
    apply registry_after_add_cwd.
    apply keeps_registry_bind; [apply keeps_registry_get|intros s].
    apply keeps_registry_single_agent.
Qed.

End Effects.

(** ** Repeated appends to the registry (C1) *)

(** C1, as the claim states it, fails: two calls of [augmentArgs] with
    [/tmp/x] on a registry that holds the filesystem provider leave two
    occurrences of [/tmp/x] in its arguments, not one; and so do two
    invocations of PlanningWorkflow by a process running in [/tmp/x]. *)
Lemma augmentArgs_twice_two_occurrences :
  args_of "filesystem"
    (augmentArgs "filesystem" ["/tmp/x"]
       (augmentArgs "filesystem" ["/tmp/x"] two_servers))
  = Some ["/srv"; "/tmp/x"; "/tmp/x"]
  ∧ occurrences "/tmp/x" ["/srv"; "/tmp/x"; "/tmp/x"] = 2
  ∧ occurrences "/tmp/x" ["/srv"; "/tmp/x"; "/tmp/x"] ≠ 1
  ∧ args_of "filesystem"
      (servers
         (run calm_world PlanningWorkflow "again"
            (run calm_world PlanningWorkflow "once" (initial two_servers)).2).2)
    = Some ["/srv"; "/tmp/x"; "/tmp/x"].
Proof. split_and!; try (vm_compute; reflexivity). vm_compute. discriminate. Qed.

(** C1, amended: [augmentArgs] is a no-op on an absent provider, and on a
    present one every call appends the extra arguments again, with no check
    for earlier appends.  Two calls append [extra] twice; [n] calls with
    [[x]] append [n] copies of [x], so two calls add two occurrences of
    [x]; and each invocation of a workflow other than ResearchWorkflow
    appends the working directory once more to the arguments of the
    filesystem provider, also the first one after [main] has appended it
    at start-up. *)
Theorem augmentArgs_appends_on_every_call (name : string)
    (extra : list string) (servers0 : Servers) :
  args_of name (augmentArgs name extra (augmentArgs name extra servers0))
  = (λ a, a ++ extra ++ extra)%list <$> args_of name servers0
  ∧ (∀ (x : string) (n : nat),
       args_of name (Nat.iter n (augmentArgs name [x]) servers0)
       = (λ a, a ++ replicate n x)%list <$> args_of name servers0)
  ∧ (∀ (x : string) (a : list string),
       args_of name servers0 = Some a →
       ∃ a', args_of name
               (augmentArgs name [x] (augmentArgs name [x] servers0))
             = Some a'
             ∧ occurrences x a' = occurrences x a + 2)
  ∧ (servers0 !! name = None → augmentArgs name extra servers0 = servers0)
  ∧ (∀ (W1 W2 : World) (w1 w2 : Workflow) (x1 : input_type w1)
       (x2 : input_type w2) (st : AppState),
       w1 ≠ ResearchWorkflow → w2 ≠ ResearchWorkflow →
       servers st = servers0 →
       args_of "filesystem"
         (servers (run W2 w2 x2 (run W1 w1 x1 st).2).2)
       = (λ a, a ++ [getcwd W1; getcwd W2])%list
           <$> args_of "filesystem" servers0)
  ∧ (∀ (W : World) (w : Workflow) (x : input_type w) (st : AppState),
       w ≠ ResearchWorkflow →
       servers st = servers0 →
       args_of "filesystem"
         (servers (run W w x (main_configure W st).2).2)
       = (λ a, a ++ [getcwd W; getcwd W])%list
           <$> args_of "filesystem" servers0).
Proof.
  split; [|split; [|split; [|split; [|split]]]].
  - rewrite !args_of_augmentArgs.
    destruct (args_of name servers0) as [a|]; simpl; [|done].
    by rewrite <- (assoc_L (++)%list).
  - intros x n. apply args_of_iter_augmentArgs.
  - intros x a Ha. exists (a ++ [x] ++ [x])%list. split.
    + rewrite !args_of_augmentArgs, Ha. simpl.
      by rewrite <- (assoc_L (++)%list).
    + rewrite occurrences_app.
      change ([x] ++ [x])%list with (replicate 2 x).
      by rewrite occurrences_replicate.
  - apply augmentArgs_absent.
  - intros W1 W2 w1 w2 x1 x2 st Hw1 Hw2 Hst.
    rewrite !registry_after_run, !decide_False by done.
    rewrite !args_of_augmentArgs, Hst.
    destruct (args_of "filesystem" servers0) as [a|]; simpl; [|done].
    by rewrite <- (assoc_L (++)%list).
  - intros W w x st Hw Hst.
    rewrite registry_after_run, decide_False by done.
    unfold main_configure, add_cwd_to_filesystem, modify_servers.
    cbn [snd servers].
    rewrite !args_of_augmentArgs, Hst.
    destruct (args_of "filesystem" servers0) as [a|]; simpl; [|done].
    by rewrite <- (assoc_L (++)%list).
Qed.

(** The amended C1 at the registry [two_servers], for a process in
    [/tmp/x] that runs PlanningWorkflow and then
    ClaudeCodeIntegrationWorkflow. *)
Lemma augmentArgs_appends_on_every_call_witness :
  args_of "filesystem"
    (servers
       (run calm_world ClaudeCodeIntegrationWorkflow ∅
          (run calm_world PlanningWorkflow "once" (initial two_servers)).2).2)
  = Some ["/srv"; "/tmp/x"; "/tmp/x"].
Proof.
  exact (proj1 (proj2 (proj2 (proj2 (proj2
    (augmentArgs_appends_on_every_call "filesystem" [] two_servers)))))
    calm_world calm_world PlanningWorkflow ClaudeCodeIntegrationWorkflow
    "once" ∅ (initial two_servers)
    ltac:(discriminate) ltac:(discriminate) eq_refl).
Defined.

(** ** Frame of the registry update (C10) *)

(** C10: a workflow invocation changes the registry, whatever its outcome,
    by at most appending the working directory to the arguments of the
    filesystem provider when that provider is present: every other
    provider (fetch among them) keeps its settings, the set of providers
    stays the same, the filesystem provider keeps its other settings, and
    ResearchWorkflow leaves the whole registry as it is. *)
Theorem workflows_only_append_cwd_to_filesystem (W : World) (w : Workflow)
    (x : input_type w) (st : AppState) :
  (∀ n : string, n ≠ "filesystem" →
     servers (run W w x st).2 !! n = servers st !! n)
  ∧ servers (run W w x st).2 !! "fetch" = servers st !! "fetch"
  ∧ dom (servers (run W w x st).2) = dom (servers st)
  ∧ servers (run W w x st).2 !! "filesystem"
    = (if decide (w = ResearchWorkflow) then servers st !! "filesystem"
       else (λ s, {| command := command s; args := args s ++ [getcwd W] |})
              <$> servers st !! "filesystem")
  ∧ (servers st !! "filesystem" = None →
     servers (run W w x st).2 = servers st)
  ∧ (w = ResearchWorkflow → servers (run W w x st).2 = servers st).
Proof.
  rewrite registry_after_run.
  case_decide as Hw.
  - repeat split; done.
  - split; [|split; [|split; [|split; [|split]]]].
    + intros n Hn. by rewrite augmentArgs_lookup, decide_False.
    + by rewrite augmentArgs_lookup, decide_False.
    + apply dom_augmentArgs.
    + by rewrite augmentArgs_lookup, decide_True.
    + apply augmentArgs_absent.
    + done.
Qed.

(** C10 at a registry without the filesystem provider: an invocation of
    VIRAOrchestrationWorkflow leaves it as it is. *)
Lemma workflows_only_append_cwd_to_filesystem_witness :
  servers
    (run calm_world VIRAOrchestrationWorkflow ∅
       (initial (<["fetch" := mkSettings "uvx" []]> ∅))).2
  = <["fetch" := mkSettings "uvx" []]> ∅.
Proof.
  exact (proj1 (proj2 (proj2 (proj2 (proj2
    (workflows_only_append_cwd_to_filesystem calm_world
       VIRAOrchestrationWorkflow ∅
       (initial (<["fetch" := mkSettings "uvx" []]> ∅)))))))
    eq_refl).
Defined.

(** ** Release of agent connections (C7) *)



Section Releases.
Context (W : World).








Lemma scoped_agent_augmentArgs (w : Workflow) (extra : list string)
    (servers0 : Servers) :
  scoped_agent w (augmentArgs "filesystem" extra servers0)
  = scoped_agent w servers0.
Proof.
  destruct w; simpl; try done;
    unfold planning_agent, orchestrator_agent, claude_code_agent,
      research_agent, filesystem_if_present, VIRA_available_servers;
    by rewrite ?has_augmentArgs.
Qed.

Lemma get_servers_bind {A : Type} (k : Servers → M A) (st : AppState) :
  (get_servers ≫= k) st = k (servers st) st.
Proof. done. Qed.



End Releases.



(** ** Outcome of a run (C2) *)

(** Unfolds a run down to the case analysis on what the collaborators
    answer. *)
Ltac unfold_run :=
  cbv [run PlanningWorkflow_run ResearchWorkflow_run
       CodeDevelopmentWorkflow_run VIRAOrchestrationWorkflow_run
       ClaudeCodeIntegrationWorkflow_run
       CodeDevelopmentWorkflow_fields VIRAOrchestrationWorkflow_fields
       ClaudeCodeIntegrationWorkflow_fields
       async_with Agent_aenter Agent_aexit Agent_attach_llm llm_generate_str
       ParallelLLM_generate_str add_cwd_to_filesystem modify_servers
       get_servers emit await mbind mret M_bind M_ret fst snd].




(** ** Scope of the agents (C3) *)

Lemma elem_of_scopeTo (requested : list string) (servers0 : Servers)
    (n : string) :
  n ∈ scopeTo requested servers0 ↔ n ∈ requested ∧ n ∈ dom servers0.
Proof. unfold scopeTo. rewrite list_elem_of_filter. tauto. Qed.

Lemma has_dom (n : string) (servers0 : Servers) :
  has n servers0 = bool_decide (n ∈ dom servers0).
Proof.
  unfold has. destruct (servers0 !! n) as [s|] eqn:Hn; symmetry.
  - apply bool_decide_eq_true, elem_of_dom. by exists s.
  - apply bool_decide_eq_false. by rewrite not_elem_of_dom.
Qed.

Lemma scopeTo_one (n : string) (servers0 : Servers) :
  scopeTo [n] servers0 = if has n servers0 then [n] else [].
Proof.
  unfold scopeTo. rewrite has_dom, filter_cons, filter_nil.
  by rewrite (decide_bool_decide (n ∈ dom servers0)).
Qed.

Lemma scopeTo_two (n m : string) (servers0 : Servers) :
  scopeTo [n; m] servers0
  = ((if has n servers0 then [n] else [])
     ++ (if has m servers0 then [m] else []))%list.
Proof.
  change [n; m] with ([n] ++ [m])%list.
  unfold scopeTo. rewrite list.filter_app.
  fold (scopeTo [n] servers0) (scopeTo [m] servers0).
  by rewrite !scopeTo_one.
Qed.

(** C3: every agent that is given capability names is scoped to the names
    it asks for that the registry holds, in the order asked: the
    intersection of the requested and the available names.  A name the
    registry does not hold is dropped without a failure, down to the empty
    scope, so the scope never leaves the registry. *)
Theorem agent_scope_is_requested_and_available (servers0 : Servers) :
  server_names (planning_agent servers0)
    = Some (scopeTo ["filesystem"] servers0)
  ∧ server_names (research_agent servers0)
    = Some (scopeTo ["fetch"] servers0)
  ∧ server_names (architect_agent servers0)
    = Some (scopeTo ["filesystem"] servers0)
  ∧ server_names (developer_agent servers0)
    = Some (scopeTo ["filesystem"] servers0)
  ∧ server_names (tester_agent servers0)
    = Some (scopeTo ["filesystem"] servers0)
  ∧ server_names (orchestrator_agent servers0)
    = Some (scopeTo ["filesystem"; "fetch"] servers0)
  ∧ server_names (claude_code_agent servers0)
    = Some (scopeTo ["filesystem"] servers0)
  ∧ (∀ (requested : list string) (n : string),
       n ∈ scopeTo requested servers0
       ↔ n ∈ requested ∧ n ∈ dom servers0)
  ∧ (∀ requested : list string,
       list_to_set (scopeTo requested servers0)
       =@{gset string} list_to_set requested ∩ dom servers0)
  ∧ (servers0 !! "filesystem" = None →
     server_names (planning_agent servers0) = Some [])
  ∧ (servers0 !! "fetch" = None →
     server_names (research_agent servers0) = Some []).
Proof.
  split_and!.
  1-7: cbn [server_names planning_agent research_agent architect_agent
            developer_agent tester_agent orchestrator_agent
            claude_code_agent];
       unfold filesystem_if_present, VIRA_available_servers;
       by rewrite ?scopeTo_one, ?scopeTo_two.
  - intros requested n. apply elem_of_scopeTo.
  - intros requested. apply set_eq. intros n.
    rewrite elem_of_intersection, !elem_of_list_to_set.
    apply elem_of_scopeTo.
  - intros H. cbn. unfold filesystem_if_present, has. by rewrite H.
  - intros H. cbn. unfold has. by rewrite H.
Qed.

(** C3 at the empty registry: the planning agent asks for the filesystem
    provider and is scoped to nothing. *)
Lemma agent_scope_is_requested_and_available_witness :
  server_names (planning_agent no_servers) = Some [].
Proof.
  exact (proj1 (proj2 (proj2 (proj2 (proj2 (proj2 (proj2 (proj2 (proj2 (proj2
    (agent_scope_is_requested_and_available no_servers)))))))))) eq_refl).
Defined.

(** ** The parallel task set of CodeDevelopmentWorkflow (C5) *)

(** C5: the [ParallelLLM] that CodeDevelopmentWorkflow builds has a
    non-empty fan-out, made of the agents architect, developer and tester
    in this order, and a fan-in agent, reviewer, that is none of them; and
    this is the one on which every invocation calls [generate_str]. *)
Theorem parallel_dev_fan_in_apart_from_fan_out (servers0 : Servers) :
  fan_out_agents (parallel_dev servers0) ≠ []
  ∧ (fan_in_agent (parallel_dev servers0)
     ∉ fan_out_agents (parallel_dev servers0))
  ∧ name <$> fan_out_agents (parallel_dev servers0)
    = ["architect"; "developer"; "tester"]
  ∧ name (fan_in_agent (parallel_dev servers0)) = "reviewer"
  ∧ (name (fan_in_agent (parallel_dev servers0))
     ∉ name <$> fan_out_agents (parallel_dev servers0))
  ∧ (∀ (W : World) (dev_request : gmap string string) (st : AppState),
       servers st = servers0 →
       ∃ message : string,
         trace (run W CodeDevelopmentWorkflow dev_request st).2
         = (trace st
            ++ [ParallelGenerateStr
                  (name (fan_in_agent (parallel_dev servers0)))
                  (name <$> fan_out_agents (parallel_dev servers0))
                  message])%list).
Proof.
  split; [done|]. split.
  { cbn. rewrite !elem_of_cons, elem_of_nil.
    intros [H|[H|[H|[]]]]; discriminate H. }
  split; [done|]. split; [done|]. split.
  { cbn. rewrite !elem_of_cons, elem_of_nil.
    intros [H|[H|[H|[]]]]; discriminate H. }
  intros W dev_request st _. eexists. unfold_run.
  destruct (parallel_generate_str W _ _); reflexivity.
Qed.

(** C5 on an invocation at the registry [two_servers]. *)
Lemma parallel_dev_fan_in_apart_from_fan_out_witness :
  ∃ message : string,
    trace (run calm_world CodeDevelopmentWorkflow ∅ (initial two_servers)).2
    = [ParallelGenerateStr "reviewer" ["architect"; "developer"; "tester"]
         message].
Proof.
  exact (proj2 (proj2 (proj2 (proj2 (proj2
    (parallel_dev_fan_in_apart_from_fan_out two_servers)))))
    calm_world ∅ (initial two_servers) eq_refl).
Defined.

(** ** Missing keys of the request dictionaries (C9) *)

Lemma dict_get_missing (d : gmap string string) (key default : string) :
  d !! key = None → dict_get d key default = default.
Proof. intros H. unfold dict_get. by rewrite H. Qed.

Lemma dict_get_union (d defaults : gmap string string)
    (key default : string) :
  defaults !! key = Some default →
  dict_get (d ∪ defaults) key default = dict_get d key default.
Proof.
  intros Hdef. unfold dict_get.
  destruct (d !! key) as [v|] eqn:Hd.
  - by rewrite (lookup_union_Some_l d defaults key v Hd).
  - by rewrite lookup_union_r, Hdef.
Qed.

Lemma CodeDevelopmentWorkflow_fields_union (d : gmap string string) :
  CodeDevelopmentWorkflow_fields (d ∪ CodeDevelopmentWorkflow_defaults)
  = CodeDevelopmentWorkflow_fields d.
Proof.
  unfold CodeDevelopmentWorkflow_fields. by rewrite !dict_get_union.
Qed.

Lemma VIRAOrchestrationWorkflow_fields_union (d : gmap string string) :
  VIRAOrchestrationWorkflow_fields (d ∪ VIRAOrchestrationWorkflow_defaults)
  = VIRAOrchestrationWorkflow_fields d.
Proof.
  unfold VIRAOrchestrationWorkflow_fields. by rewrite !dict_get_union.
Qed.

Lemma ClaudeCodeIntegrationWorkflow_fields_union (d : gmap string string) :
  ClaudeCodeIntegrationWorkflow_fields
    (d ∪ ClaudeCodeIntegrationWorkflow_defaults)
  = ClaudeCodeIntegrationWorkflow_fields d.
Proof.
  unfold ClaudeCodeIntegrationWorkflow_fields. by rewrite !dict_get_union.
Qed.

(** C9: in the three workflows that take a dictionary, a key that is
    missing from the request is read as its default text and nothing
    fails on it: the invocation is the one of the request completed with
    the defaults, also for the empty dictionary. *)
Theorem missing_keys_take_defaults (W : World) (d : gmap string string)
    (st : AppState) :
  ((d !! "task" = None →
    (CodeDevelopmentWorkflow_fields d).1.1 = "Code development task")
   ∧ (d !! "language" = None →
      (CodeDevelopmentWorkflow_fields d).1.2 = "python")
   ∧ (d !! "requirements" = None →
      (CodeDevelopmentWorkflow_fields d).2 = "Standard best practices"))
  ∧ ((d !! "description" = None →
      (VIRAOrchestrationWorkflow_fields d).1.1 = "Complex project")
     ∧ (d !! "type" = None →
        (VIRAOrchestrationWorkflow_fields d).1.2 = "general")
     ∧ (d !! "priority" = None →
        (VIRAOrchestrationWorkflow_fields d).2 = "medium"))
  ∧ ((d !! "operation" = None →
      (ClaudeCodeIntegrationWorkflow_fields d).1.1 = "analyze")
     ∧ (d !! "target" = None →
        (ClaudeCodeIntegrationWorkflow_fields d).1.2 = ".")
     ∧ (d !! "prompt" = None →
        (ClaudeCodeIntegrationWorkflow_fields d).2
        = "Analyze and improve this code"))
  ∧ (CodeDevelopmentWorkflow_fields ∅
     = ("Code development task", "python", "Standard best practices")
     ∧ VIRAOrchestrationWorkflow_fields ∅
       = ("Complex project", "general", "medium")
     ∧ ClaudeCodeIntegrationWorkflow_fields ∅
       = ("analyze", ".", "Analyze and improve this code"))
  ∧ (run W CodeDevelopmentWorkflow d st
     = run W CodeDevelopmentWorkflow
         (d ∪ CodeDevelopmentWorkflow_defaults) st
     ∧ run W VIRAOrchestrationWorkflow d st
       = run W VIRAOrchestrationWorkflow
           (d ∪ VIRAOrchestrationWorkflow_defaults) st
     ∧ run W ClaudeCodeIntegrationWorkflow d st
       = run W ClaudeCodeIntegrationWorkflow
           (d ∪ ClaudeCodeIntegrationWorkflow_defaults) st).
Proof.
  split_and!; try (intros H; cbn; by apply dict_get_missing); try done.
  - cbn [run]. unfold CodeDevelopmentWorkflow_run.
    by rewrite CodeDevelopmentWorkflow_fields_union.
  - cbn [run]. unfold VIRAOrchestrationWorkflow_run.
    by rewrite VIRAOrchestrationWorkflow_fields_union.
  - cbn [run]. unfold ClaudeCodeIntegrationWorkflow_run.
    by rewrite ClaudeCodeIntegrationWorkflow_fields_union.
Qed.

(** C9 at the empty dictionary: VIRAOrchestrationWorkflow reads the
    project description as [Complex project]. *)
Lemma missing_keys_take_defaults_witness :
  (VIRAOrchestrationWorkflow_fields ∅).1.1 = "Complex project".
Proof.
  exact (proj1 (proj1 (proj2
    (missing_keys_take_defaults calm_world ∅ (initial no_servers))))
    eq_refl).
Defined.

(** ** Unknown workflow names (C8) *)

(** C8: for a name that is not in the registration table, [invoke] answers
    with failure(UnknownWorkflow), whatever the input; it raises nothing
    and leaves the state as it is. *)
Theorem invoke_unknown_workflow (W : World) (workflowName : string)
    (input : Runner.Input) (st : AppState) :
  Runner.registered !! workflowName = None →
  Runner.invoke W workflowName input st
  = (Returns (Some (failure UnknownWorkflow workflowName)), st).
Proof. intros H. unfold Runner.invoke. by rewrite H. Qed.

(** C8 at [invoke("nonexistent", {})]. *)
Lemma invoke_unknown_workflow_witness :
  Runner.invoke calm_world "nonexistent" (Runner.InDict ∅)
    (initial two_servers)
  = (Returns (Some (failure UnknownWorkflow "nonexistent")),
     initial two_servers).
Proof.
  exact (invoke_unknown_workflow calm_world "nonexistent" (Runner.InDict ∅)
           (initial two_servers) eq_refl).
Defined.

(** ** Model Selector (C6) *)

(** The selection the specification gives as an example: with all the
    weight on intelligence, the second of two candidates of capability 0.5
    and 0.9 is selected, whatever their names, costs and latencies. *)
Lemma select_prefers_capability (n1 n2 : string) (c1 l1 c2 l2 : Qc) :
  ModelSelector.select (mkPrefs 1 0 0)
    [ModelSelector.mkVariant n1 (Q2Qc (5 # 10)) c1 l1;
     ModelSelector.mkVariant n2 (Q2Qc (9 # 10)) c2 l2]
  = inr (ModelSelector.mkVariant n2 (Q2Qc (9 # 10)) c2 l2).
Proof.
  unfold ModelSelector.select, ModelSelector.best_of.
  rewrite decide_True; [done|].
  unfold ModelSelector.weighted_score. cbn [intelligencePriority
    costPriority speedPriority ModelSelector.capabilityScore
    ModelSelector.costScore ModelSelector.latencyScore].
  replace (1 * Q2Qc (5 # 10) - 0 * c1 - 0 * l1)%Qc with (Q2Qc (5 # 10))
    by ring.
  replace (1 * Q2Qc (9 # 10) - 0 * c2 - 0 * l2)%Qc with (Q2Qc (9 # 10))
    by ring.
  reflexivity.
Qed.

Section Selector.
Import ModelSelector.
Context (p : ModelPreferences).

Local Abbreviation score := (weighted_score p).

(** The scan returns the first candidate of maximal score. *)
Lemma best_of_first_maximum (best : ModelVariant) (rest : list ModelVariant) :
  ∃ i : nat,
    (best :: rest) !! i = Some (best_of p best rest)
    ∧ (∀ j u, (best :: rest) !! j = Some u →
         (score u ≤ score (best_of p best rest))%Qc)
    ∧ (∀ j u, j < i → (best :: rest) !! j = Some u →
         (score u < score (best_of p best rest))%Qc).
Proof.
  revert best. induction rest as [|v rest IH]; intros best; simpl.
  - exists 0. split; [done|]. split.
    + intros [|j] u Hu; simplify_eq/=. apply Qcle_refl.
    + intros j u Hj. lia.
  - case_decide as Hlt.
    + destruct (IH v) as (i & Hi & Hmax & Hfirst).
      assert (score best < score (best_of p v rest))%Qc as Hbest.
      { eapply Qclt_le_trans; [exact Hlt|]. by apply (Hmax 0). }
      exists (S i). split; [done|]. split.
      * intros [|j] u Hu; simplify_eq/=.
        -- by apply Qclt_le_weak.
        -- by apply (Hmax j).
      * intros [|j] u Hj Hu; simplify_eq/=; [done|].
        apply (Hfirst j); [lia|done].
    + apply Qcnot_lt_le in Hlt.
      destruct (IH best) as (i & Hi & Hmax & Hfirst).
      assert (score v ≤ score (best_of p best rest))%Qc as Hv.
      { eapply Qcle_trans; [exact Hlt|]. by apply (Hmax 0). }
      destruct i as [|i].
      * exists 0. split; [done|]. split.
        -- intros [|[|j]] u Hu; simplify_eq/=.
           ++ by apply (Hmax 0).
           ++ done.
           ++ by apply (Hmax (S j)).
        -- intros j u Hj. lia.
      * exists (S (S i)). split; [done|]. split.
        -- intros [|[|j]] u Hu; simplify_eq/=.
           ++ by apply (Hmax 0).
           ++ done.
           ++ by apply (Hmax (S j)).
        -- intros [|[|j]] u Hj Hu; simplify_eq/=.
           ++ apply (Hfirst 0); [lia|done].
           ++ eapply Qcle_lt_trans; [exact Hlt|].
              apply (Hfirst 0); [lia|done].
           ++ apply (Hfirst (S j)); [lia|done].
Qed.

(** C6: on a non-empty candidate list the Model Selector returns the
    candidate of maximal weighted score that is declared first: no
    candidate scores higher and every earlier one scores strictly lower.
    These two conditions fix the answer, so that equal preferences and
    candidates always give the same variant.  With all the weight on
    intelligence, the second of two candidates of capability 0.5 and 0.9
    is selected.  On the empty list the selector fails with
    [NoCandidates]. *)
Theorem select_first_of_maximal_score (c : ModelVariant)
    (cs : list ModelVariant) :
  select p [] = inl NoCandidates
  ∧ (∀ (n1 n2 : string) (c1 l1 c2 l2 : Qc),
       select (mkPrefs 1 0 0)
         [mkVariant n1 (Q2Qc (5 # 10)) c1 l1;
          mkVariant n2 (Q2Qc (9 # 10)) c2 l2]
       = inr (mkVariant n2 (Q2Qc (9 # 10)) c2 l2))
  ∧ ∃ (i : nat) (v : ModelVariant),
      select p (c :: cs) = inr v
      ∧ (c :: cs) !! i = Some v
      ∧ (∀ j u, (c :: cs) !! j = Some u → (score u ≤ score v)%Qc)
      ∧ (∀ j u, j < i → (c :: cs) !! j = Some u → (score u < score v)%Qc)
      ∧ (∀ i' v',
           (c :: cs) !! i' = Some v' →
           (∀ j u, (c :: cs) !! j = Some u → (score u ≤ score v')%Qc) →
           (∀ j u, j < i' → (c :: cs) !! j = Some u →
              (score u < score v')%Qc) →
           i' = i ∧ v' = v).
Proof.
  split; [done|]. split; [apply select_prefers_capability|].
  destruct (best_of_first_maximum c cs) as (i & Hi & Hmax & Hfirst).
  exists i, (best_of p c cs). split; [done|]. split; [done|].
  split; [done|]. split; [done|].
  intros i' v' Hi' Hmax' Hfirst'.
  assert (i' = i) as ->.
  { destruct (Nat.lt_trichotomy i' i) as [Hlt|[Heq|Hgt]]; [|done|].
    - specialize (Hfirst i' v' Hlt Hi'). specialize (Hmax' i _ Hi).
      exfalso. eapply Qclt_not_le; eauto.
    - specialize (Hfirst' i _ Hgt Hi). specialize (Hmax i' v' Hi').
      exfalso. eapply Qclt_not_le; eauto. }
  split; [done|]. congruence.
Qed.

End Selector.

(** ** Parallel aggregation (C4) *)

Section AggregatorProperties.
Import Aggregator.
Context (executor : Agent → Prompt → WorkflowResult).

Lemma tagged_output_Some (run : Agent * string) (id out : string) :
  tagged_output executor run = Some (id, out)
  ↔ name run.1 = id ∧ executor run.1 (Text run.2) = success out.
Proof.
  unfold tagged_output.
  destruct (executor run.1 (Text run.2)) as [v|k m]; split;
    try (intros [??]); try intros ?; simplify_eq; done.
Qed.

Lemma tagged_output_succeeded (run : Agent * string) :
  is_Some (tagged_output executor run) ↔ succeeded executor run = true.
Proof.
  unfold tagged_output, succeeded.
  destruct (executor run.1 (Text run.2)); split;
    intros H; try done; try by eexists.
Qed.

Lemma length_omap_tagged (runs : list (Agent * string)) :
  length (omap (tagged_output executor) runs)
  = length (filter (λ run, succeeded executor run) runs).
Proof.
  induction runs as [|run runs IH]; [done|].
  change (omap (tagged_output executor) (run :: runs))
    with (match tagged_output executor run with
          | Some part => part :: omap (tagged_output executor) runs
          | None => omap (tagged_output executor) runs
          end).
  destruct (tagged_output executor run) as [part|] eqn:Hpart.
  - rewrite filter_cons_True; [cbn [length]; by rewrite IH|].
    apply Is_true_true, tagged_output_succeeded. by eexists.
  - rewrite filter_cons_False; [done|].
    intros Hs%Is_true_true%tagged_output_succeeded.
    rewrite Hpart in Hs. by destruct Hs.
Qed.

Lemma omap_tagged_nil (runs : list (Agent * string)) :
  omap (tagged_output executor) runs = []
  ↔ ∀ run, run ∈ runs → succeeded executor run = false.
Proof.
  induction runs as [|run runs IH]; simpl.
  - split; [|done]. intros _ run Hrun. by apply elem_of_nil in Hrun.
  - destruct (tagged_output executor run) as [part|] eqn:Hpart.
    + split; [done|]. intros Hall. exfalso.
      assert (succeeded executor run = true) as Hs
        by (apply tagged_output_succeeded; by eexists).
      rewrite Hall in Hs; [done|]. apply elem_of_cons; by left.
    + rewrite IH. split.
      * intros Hall run' Hin.
        apply elem_of_cons in Hin as [->|Hin]; [|by apply Hall].
        destruct (succeeded executor run) eqn:Hs; [|done].
        apply tagged_output_succeeded in Hs. rewrite Hpart in Hs.
        by destruct Hs.
      * intros Hall run' Hin. apply Hall, elem_of_cons. by right.
Qed.

Lemma fan_in_invoked_fan_out_runs (runs : list (Agent * string)) :
  fan_in_invoked ((λ run, FanOutRun (name run.1) run.2) <$> runs) = false.
Proof. induction runs as [|run runs IH]; [done|]. simpl. exact IH. Qed.

Lemma fan_in_invoked_snoc (log : list started) (agent : string)
    (parts : list (string * string)) :
  fan_in_invoked (log ++ [FanInRun agent parts]) = true.
Proof.
  unfold fan_in_invoked. rewrite existsb_app. simpl.
  by rewrite orb_true_r.
Qed.

(** C4: all fan-out runs are started.  The composite holds exactly the
    outputs of the successful ones, each tagged with the name of its
    agent, and a failed run gives it nothing.  If a fan-out run succeeds,
    the fan-in agent is run once, on the composite, and its result is the
    aggregation's; the aggregation fails with [AggregationFailed] without
    running the fan-in agent if and only if every fan-out run fails. *)
Theorem aggregate_best_effort (ts : ParallelTaskSet) :
  (∀ id out : string,
     (id, out) ∈ omap (tagged_output executor) (fan_out ts)
     ↔ ∃ (a : Agent) (prompt : string),
         (a, prompt) ∈ fan_out ts ∧ name a = id
         ∧ executor a (Text prompt) = success out)
  ∧ length (omap (tagged_output executor) (fan_out ts))
    = length (filter (λ run, succeeded executor run) (fan_out ts))
  ∧ ((∃ run, run ∈ fan_out ts ∧ succeeded executor run = true) →
     aggregate executor ts
     = (executor (fan_in ts)
          (Composite (omap (tagged_output executor) (fan_out ts))),
        ((λ run, FanOutRun (name run.1) run.2) <$> fan_out ts)
        ++ [FanInRun (name (fan_in ts))
              (omap (tagged_output executor) (fan_out ts))])%list)
  ∧ ((∀ run, run ∈ fan_out ts → succeeded executor run = false)
     ↔ (∃ message : string,
          (aggregate executor ts).1 = failure AggregationFailed message)
       ∧ fan_in_invoked (aggregate executor ts).2 = false)
  ∧ ((∀ run, run ∈ fan_out ts → succeeded executor run = false) →
     (aggregate executor ts).2
     = (λ run, FanOutRun (name run.1) run.2) <$> fan_out ts).
Proof.
  split_and!.
  - intros id out. rewrite list_elem_of_omap. split.
    + intros ([a prompt] & Hin & Hout).
      apply tagged_output_Some in Hout as [??]. by exists a, prompt.
    + intros (a & prompt & Hin & Hid & Hout). exists (a, prompt).
      split; [done|]. by apply tagged_output_Some.
  - apply length_omap_tagged.
  - intros (run & Hin & Hs). unfold aggregate.
    destruct (omap (tagged_output executor) (fan_out ts)) as [|part parts]
      eqn:Hparts; [|done].
    rewrite omap_tagged_nil in Hparts. rewrite Hparts in Hs; done.
  - rewrite <- omap_tagged_nil. unfold aggregate.
    destruct (omap (tagged_output executor) (fan_out ts)) as [|part parts];
      simpl.
    + split; [|done]. intros _. split; [by eexists|].
      apply fan_in_invoked_fan_out_runs.
    + split; [done|]. intros [_ Hlog].
      by rewrite fan_in_invoked_snoc in Hlog.
  - rewrite <- omap_tagged_nil. unfold aggregate. by intros ->.
Qed.

End AggregatorProperties.

(** C4 on the task set of CodeDevelopmentWorkflow when the architect's run
    fails and the two others succeed: the reviewer is run on the two
    successful outputs and its result is returned. *)
Lemma aggregate_best_effort_witness :
  Aggregator.aggregate architect_fails
    (Aggregator.task_set (parallel_dev two_servers) "build")
  = (success "merged",
     [Aggregator.FanOutRun "architect" "build";
      Aggregator.FanOutRun "developer" "build";
      Aggregator.FanOutRun "tester" "build";
      Aggregator.FanInRun "reviewer"
        [("developer", "output of developer");
         ("tester", "output of tester")]]).
Proof.
  exact (proj1 (proj2 (proj2
    (aggregate_best_effort architect_fails
       (Aggregator.task_set (parallel_dev two_servers) "build"))))
    (ex_intro _ (developer_agent two_servers, "build")
       (conj (list_elem_of_further _ _ _ (list_elem_of_here _ _)) eq_refl))).
Defined.

(** When the three fan-out runs all fail, the aggregation fails with
    [AggregationFailed] and the reviewer is not run. *)
Example aggregate_all_fail :
  Aggregator.aggregate all_fail
    (Aggregator.task_set (parallel_dev two_servers) "build")
  = (failure AggregationFailed "all fan-out runs failed",
     [Aggregator.FanOutRun "architect" "build";
      Aggregator.FanOutRun "developer" "build";
      Aggregator.FanOutRun "tester" "build"]).
Proof. reflexivity. Qed.

(** * Further properties of the workflows *)

(** ** Shape of one invocation *)

Section Shape.
Context (W : World).

Lemma agent_of_augmentArgs (w : Workflow) (servers0 : Servers) (a : Agent) :
  scoped_agent w servers0 = Some a →
  scoped_agent w (augmentArgs "filesystem" [getcwd W] servers0) = Some a.
Proof. intros H. by rewrite scoped_agent_augmentArgs. Qed.

Lemma add_cwd_bind {A : Type} (m : M A) (st : AppState) :
  (add_cwd_to_filesystem W;; m) st
  = m {| servers := augmentArgs "filesystem" [getcwd W] (servers st);
         trace := trace st |}.
Proof. done. Qed.

(** The block of a single-agent workflow, as outcome and calls. *)
Lemma async_with_shape (a : Agent) (message : string)
    (params : RequestParams) (st : AppState) :
  async_with W a
    (llm ← Agent_attach_llm W a;
     text ← llm_generate_str W llm message params;
     mret (success text)) st
  = (single_agent_outcome W a message params,
     {| servers := servers st;
        trace := trace st ++ single_agent_calls W a message params |}).
Proof.
  unfold single_agent_outcome, single_agent_calls, after_raise.
  cbv [async_with Agent_aenter Agent_aexit Agent_attach_llm
       llm_generate_str emit await mbind mret M_bind M_ret].
  cbn [servers trace].
  destruct (aenter W a) as [[]|e0]; cbn [servers trace].
  - destruct (attach_llm W a) as [[]|e1]; cbn [servers trace].
    + destruct (generate_str W a message params) as [t|e2];
        cbn [servers trace].
      * destruct (aexit W a None) as [b|e3];
          by rewrite <- !(assoc_L (++)%list).
      * destruct (aexit W a (Some e2)) as [[]|e3];
          by rewrite <- !(assoc_L (++)%list).
    + destruct (aexit W a (Some e1)) as [[]|e3];
        by rewrite <- !(assoc_L (++)%list).
  - done.
Qed.

(** A run of a workflow that opens a connection scope is one such block on
    the scoped agent, after the update of the registry. *)
Lemma run_shape (w : Workflow) (x : input_type w) (st : AppState)
    (a : Agent) :
  scoped_agent w (servers st) = Some a →
  ∃ (message : string) (params : RequestParams),
    run W w x st
    = (single_agent_outcome W a message params,
       {| servers := servers (run W w x st).2;
          trace := trace st ++ single_agent_calls W a message params |}).
Proof.
  intros Ha. pose proof (registry_after_run W w x st) as Hreg.
  rewrite Hreg. clear Hreg.
  pose proof (agent_of_augmentArgs w (servers st) a Ha) as Ha'.
  destruct w; cbn [scoped_agent] in Ha, Ha'; cbn [run];
    try discriminate; injection Ha as Ha; injection Ha' as Ha'.
  - eexists _, _. unfold PlanningWorkflow_run.
    rewrite add_cwd_bind, get_servers_bind.
    cbn [servers trace]. rewrite Ha', async_with_shape. cbn [servers trace].
    rewrite decide_False by done. reflexivity.
  - eexists _, _. unfold ResearchWorkflow_run.
    rewrite get_servers_bind.
    rewrite Ha, async_with_shape.
    rewrite decide_True by done. by destruct st.
  - eexists _, _.
    unfold VIRAOrchestrationWorkflow_run, VIRAOrchestrationWorkflow_fields.
    rewrite add_cwd_bind, get_servers_bind.
    cbn [servers trace]. rewrite Ha', async_with_shape. cbn [servers trace].
    rewrite decide_False by done. reflexivity.
  - eexists _, _.
    unfold ClaudeCodeIntegrationWorkflow_run,
      ClaudeCodeIntegrationWorkflow_fields.
    rewrite add_cwd_bind, get_servers_bind.
    cbn [servers trace]. rewrite Ha', async_with_shape. cbn [servers trace].
    rewrite decide_False by done. reflexivity.
Qed.

End Shape.

(** ** Order of the calls of an invocation *)

(** X1: in a workflow that opens a connection scope, the calls of an
    invocation start with the connection of its agent, are all made on
    that agent, and every attachment or generation lies strictly between
    the connection and the release, which is the last call. *)
Theorem model_calls_inside_connection_scope (W : World) (w : Workflow)
    (x : input_type w) (st : AppState) (a : Agent) :
  scoped_agent w (servers st) = Some a →
  ∃ calls : list event,
    trace (run W w x st).2 = (trace st ++ calls)%list
    ∧ head calls = Some (Aenter (name a))
    ∧ (∀ ev, ev ∈ calls → event_agent ev = name a)
    ∧ (∀ i ev, calls !! i = Some ev → is_model_call ev = true →
         0 < i ∧ S i < length calls
         ∧ ∃ exc, list.last calls = Some (Aexit (name a) exc)).
Proof.
  intros Ha. destruct (run_shape W w x st a Ha) as (message & params & ->).
  eexists. split; [reflexivity|]. unfold single_agent_calls.
  destruct (aenter W a) as [u|e0];
    [destruct (attach_llm W a) as [u'|e1];
       [destruct (generate_str W a message params) as [t|e2]|]|].
  all: split; [done|]; split.
  all: try (intros ev; rewrite ?elem_of_cons, elem_of_nil;
            intros H; repeat destruct H as [->|H]; done).
  all: intros i ev Hi Hev;
    repeat (destruct i as [|i]; simplify_eq/=; try done).
  all: split; [lia|]; split; [lia|]; by eexists.
Qed.

(** X1 on an invocation of ResearchWorkflow. *)
Lemma model_calls_inside_connection_scope_witness :
  ∃ calls : list event,
    trace (run calm_world ResearchWorkflow "topic" (initial two_servers)).2
    = calls
    ∧ head calls = Some (Aenter "research_agent")
    ∧ (∀ ev, ev ∈ calls → event_agent ev = "research_agent")
    ∧ (∀ i ev, calls !! i = Some ev → is_model_call ev = true →
         0 < i ∧ S i < length calls
         ∧ ∃ exc, list.last calls = Some (Aexit "research_agent" exc)).
Proof.
  exact (model_calls_inside_connection_scope calm_world ResearchWorkflow
           "topic" (initial two_servers) (research_agent two_servers)
           eq_refl).
Defined.



(** ** Outcome of an invocation *)

Lemma parallel_dev_augmentArgs (extra : list string) (servers0 : Servers) :
  parallel_dev (augmentArgs "filesystem" extra servers0)
  = parallel_dev servers0.
Proof.
  unfold parallel_dev, architect_agent, developer_agent, tester_agent,
    filesystem_if_present. by rewrite has_augmentArgs.
Qed.

Lemma scoped_agent_None (w : Workflow) (servers0 : Servers) :
  scoped_agent w servers0 = None → w = CodeDevelopmentWorkflow.
Proof. by destruct w. Qed.

(** The outcome of CodeDevelopmentWorkflow is the one of the generation of
    its [ParallelLLM]. *)
Lemma CodeDevelopmentWorkflow_outcome (W : World)
    (dev_request : gmap string string) (st : AppState) :
  ∃ message : string,
    (run W CodeDevelopmentWorkflow dev_request st).1
    = match parallel_generate_str W (parallel_dev (servers st)) message with
      | Returns text => Returns (Some (success text))
      | Raises e => Raises e
      end.
Proof.
  exists (let '(task, language, requirements) :=
            CodeDevelopmentWorkflow_fields dev_request in
          development_prompt task language requirements).
  unfold_run. cbn [servers]. rewrite parallel_dev_augmentArgs.
  by destruct (parallel_generate_str W _ _).
Qed.

(** X3: once the connection is entered, a release that raises decides the
    outcome: its exception leaves [run], in place of the text of a
    generation that succeeded or of the exception of one that failed. *)
Theorem failing_release_decides_outcome (W : World) (w : Workflow)
    (x : input_type w) (st : AppState) (a : Agent) (e' : exn) :
  scoped_agent w (servers st) = Some a →
  aenter W a = Returns tt →
  (∀ exc, aexit W a exc = Raises e') →
  (run W w x st).1 = Raises e'.
Proof.
  intros Ha Henter Hexit.
  destruct (run_shape W w x st a Ha) as (message & params & ->).
  cbn [fst]. unfold single_agent_outcome, after_raise.
  rewrite Henter.
  destruct (attach_llm W a) as [u|e1];
    [destruct (generate_str W a message params) as [t|e2]|];
    by rewrite Hexit.
Qed.

(** X3 on an invocation whose generation succeeds and whose release
    fails. *)
Lemma failing_release_decides_outcome_witness :
  (run failing_release PlanningWorkflow "task" (initial two_servers)).1
  = Raises (Exception "shutdown failure").
Proof.
  exact (failing_release_decides_outcome failing_release PlanningWorkflow
           "task" (initial two_servers) (planning_agent two_servers)
           (Exception "shutdown failure") eq_refl eq_refl (λ _, eq_refl)).
Defined.

(** X4: [run] returns without a [WorkflowResult] (Python's [None]) only in
    a workflow that opens a connection scope, and only when a call inside
    the scope raised and the agent's [__aexit__] suppressed the
    exception. *)
Theorem none_only_when_release_suppresses (W : World) (w : Workflow)
    (x : input_type w) (st : AppState) :
  (run W w x st).1 = Returns None →
  ∃ (a : Agent) (e : exn),
    scoped_agent w (servers st) = Some a
    ∧ aenter W a = Returns tt
    ∧ aexit W a (Some e) = Returns true
    ∧ (attach_llm W a = Raises e
       ∨ ∃ message params, generate_str W a message params = Raises e).
Proof.
  destruct (scoped_agent w (servers st)) as [a|] eqn:Ha.
  - destruct (run_shape W w x st a Ha) as (message & params & ->).
    cbn [fst]. unfold single_agent_outcome, after_raise.
    destruct (aenter W a) as [[]|e0] eqn:Henter; [|done].
    destruct (attach_llm W a) as [u|e1] eqn:Hattach.
    + destruct (generate_str W a message params) as [t|e2] eqn:Hgen.
      * by destruct (aexit W a None).
      * destruct (aexit W a (Some e2)) as [[]|e3] eqn:Hexit; try done.
        intros _. exists a, e2. split_and!; try done.
        right. by exists message, params.
    + destruct (aexit W a (Some e1)) as [[]|e3] eqn:Hexit; try done.
      intros _. exists a, e1. split_and!; try done. by left.
  - apply scoped_agent_None in Ha as ->.
    destruct (CodeDevelopmentWorkflow_outcome W x st) as [message ->].
    by destruct (parallel_generate_str W _ _).
Qed.

(** X4 on an invocation whose generation fails and whose agent suppresses
    the exception. *)
Lemma none_only_when_release_suppresses_witness :
  ∃ (a : Agent) (e : exn),
    scoped_agent ClaudeCodeIntegrationWorkflow two_servers = Some a
    ∧ aenter suppressing_release a = Returns tt
    ∧ aexit suppressing_release a (Some e) = Returns true
    ∧ (attach_llm suppressing_release a = Raises e
       ∨ ∃ message params,
           generate_str suppressing_release a message params = Raises e).
Proof.
  exact (none_only_when_release_suppresses suppressing_release
           ClaudeCodeIntegrationWorkflow ∅ (initial two_servers) eq_refl).
Defined.

(** X5: whatever [run] returns as a result is a success that carries,
    unchanged, the text that the model generated in this invocation; in a
    workflow with a connection scope the connection was then entered, a
    model attached and the agent released. *)
Theorem result_carries_generated_text (W : World) (w : Workflow)
    (x : input_type w) (st : AppState) (r : WorkflowResult) :
  (run W w x st).1 = Returns (Some r) →
  ∃ text : string,
    r = success text
    ∧ match scoped_agent w (servers st) with
      | Some a =>
          aenter W a = Returns tt
          ∧ attach_llm W a = Returns tt
          ∧ (∃ message params,
               generate_str W a message params = Returns text)
          ∧ ∃ b, aexit W a None = Returns b
      | None =>
          ∃ message,
            parallel_generate_str W (parallel_dev (servers st)) message
            = Returns text
      end.
Proof.
  destruct (scoped_agent w (servers st)) as [a|] eqn:Ha.
  - destruct (run_shape W w x st a Ha) as (message & params & ->).
    cbn [fst]. unfold single_agent_outcome, after_raise.
    destruct (aenter W a) as [[]|e0] eqn:Henter; [|done].
    destruct (attach_llm W a) as [[]|e1] eqn:Hattach.
    + destruct (generate_str W a message params) as [t|e2] eqn:Hgen.
      * destruct (aexit W a None) as [b|e3] eqn:Hexit; [|done].
        intros [= <-]. exists t. split_and!; try done.
        -- by exists message, params.
        -- by exists b.
      * by destruct (aexit W a (Some e2)) as [[]|e3].
    + by destruct (aexit W a (Some e1)) as [[]|e3].
  - apply scoped_agent_None in Ha as ->.
    destruct (CodeDevelopmentWorkflow_outcome W x st) as [message ->].
    destruct (parallel_generate_str W _ _) as [t|e] eqn:Hpar; [|done].
    intros [= <-]. exists t. split; [done|]. by exists message.
Qed.

(** X5 on an invocation of CodeDevelopmentWorkflow. *)
Lemma result_carries_generated_text_witness :
  ∃ text : string,
    success "reviewed" = success text
    ∧ ∃ message,
        parallel_generate_str calm_world (parallel_dev two_servers) message
        = Returns text.
Proof.
  exact (result_carries_generated_text calm_world CodeDevelopmentWorkflow ∅
           (initial two_servers) (success "reviewed") eq_refl).
Defined.

(** ** What an invocation depends on *)





(** ** Composition of registry updates and sequences of invocations *)

Lemma extend_nil (settings : MCPServerSettings) : extend settings [] = settings.
Proof. destruct settings. unfold extend. simpl. by rewrite app_nil_r. Qed.

Lemma extend_extend (settings : MCPServerSettings) (e1 e2 : list string) :
  extend (extend settings e1) e2 = extend settings (e1 ++ e2).
Proof. unfold extend. simpl. by rewrite <- (assoc_L (++)%list). Qed.

Lemma augmentArgs_nil (name : string) (servers0 : Servers) :
  augmentArgs name [] servers0 = servers0.
Proof.
  apply map_eq. intros n. rewrite augmentArgs_lookup.
  case_decide as Hn; [|done]. subst n.
  destruct (servers0 !! name) as [s|]; [|done]. simpl.
  by rewrite extend_nil.
Qed.

Lemma augmentArgs_app (name : string) (e1 e2 : list string)
    (servers0 : Servers) :
  augmentArgs name e2 (augmentArgs name e1 servers0)
  = augmentArgs name (e1 ++ e2) servers0.
Proof.
  apply map_eq. intros n. rewrite !augmentArgs_lookup.
  case_decide as Hn; [|done]. subst n.
  destruct (servers0 !! name) as [s|]; [|done]. simpl.
  by rewrite extend_extend.
Qed.

Lemma augmentArgs_comm (n1 n2 : string) (e1 e2 : list string)
    (servers0 : Servers) :
  n1 ≠ n2 →
  augmentArgs n1 e1 (augmentArgs n2 e2 servers0)
  = augmentArgs n2 e2 (augmentArgs n1 e1 servers0).
Proof.
  intros Hne. apply map_eq. intros n. rewrite !augmentArgs_lookup.
  repeat case_decide; by simplify_eq.
Qed.

(** X7: updates of a provider's arguments compose as the appended lists
    do: appending [e1] and then [e2] is appending [e1 ++ e2], appending
    nothing changes nothing, and updates of two different providers can be
    done in either order. *)
Theorem augmentArgs_composes (n1 n2 : string) (e1 e2 : list string)
    (servers0 : Servers) :
  augmentArgs n1 e2 (augmentArgs n1 e1 servers0)
  = augmentArgs n1 (e1 ++ e2) servers0
  ∧ augmentArgs n1 [] servers0 = servers0
  ∧ (n1 ≠ n2 →
     augmentArgs n1 e1 (augmentArgs n2 e2 servers0)
     = augmentArgs n2 e2 (augmentArgs n1 e1 servers0)).
Proof.
  split_and!;
    [apply augmentArgs_app|apply augmentArgs_nil|apply augmentArgs_comm].
Qed.

(** X7 on the two providers of [two_servers]. *)
Lemma augmentArgs_composes_witness :
  augmentArgs "filesystem" ["/a"] (augmentArgs "fetch" ["-v"] two_servers)
  = augmentArgs "fetch" ["-v"] (augmentArgs "filesystem" ["/a"] two_servers).
Proof.
  exact (proj2 (proj2
    (augmentArgs_composes "filesystem" "fetch" ["/a"] ["-v"] two_servers))
    ltac:(discriminate)).
Defined.

Lemma state_after_cons (i : Invocation) (invs : list Invocation)
    (st : AppState) :
  state_after (i :: invs) st = state_after invs (invoke_on st i).2.
Proof. done. Qed.

Lemma appended_by_cons (i : Invocation) (invs : list Invocation) :
  appended_by (i :: invs)
  = if updates_registry i then getcwd (inv_world i) :: appended_by invs
    else appended_by invs.
Proof.
  unfold appended_by. rewrite filter_cons.
  destruct (updates_registry i); by case_decide.
Qed.

(** The registry after a sequence of invocations. *)
Lemma servers_state_after (invs : list Invocation) (st : AppState) :
  servers (state_after invs st)
  = augmentArgs "filesystem" (appended_by invs) (servers st).
Proof.
  revert st. induction invs as [|i invs IH]; intros st.
  - by rewrite augmentArgs_nil.
  - rewrite state_after_cons, IH, appended_by_cons.
    unfold invoke_on. rewrite registry_after_run.
    unfold updates_registry.
    case_decide as Hw.
    + by rewrite bool_decide_eq_false_2 by (by intros ?).
    + rewrite bool_decide_eq_true_2 by done.
      by rewrite augmentArgs_app.
Qed.

(** X8: over any sequence of invocations the registry keeps its set of
    providers; every provider other than filesystem keeps its settings;
    the filesystem provider keeps its other settings and its earlier
    arguments, in their order, at the front of its argument list. *)
Theorem registry_kept_over_invocations (invs : list Invocation)
    (st : AppState) :
  dom (servers (state_after invs st)) = dom (servers st)
  ∧ (∀ n : string, n ≠ "filesystem" →
       servers (state_after invs st) !! n = servers st !! n)
  ∧ command <$> servers (state_after invs st) !! "filesystem"
    = command <$> servers st !! "filesystem"
  ∧ (∀ a : list string,
       args_of "filesystem" (servers st) = Some a →
       ∃ added : list string,
         args_of "filesystem" (servers (state_after invs st))
         = Some (a ++ added)%list).
Proof.
  rewrite servers_state_after. split_and!.
  - apply dom_augmentArgs.
  - intros n Hn. by rewrite augmentArgs_lookup, decide_False.
  - rewrite augmentArgs_lookup, decide_True by done.
    by destruct (servers st !! "filesystem").
  - intros a Ha. exists (appended_by invs).
    by rewrite args_of_augmentArgs, Ha.
Qed.

(** X8 on three invocations on [two_servers]. *)
Lemma registry_kept_over_invocations_witness :
  ∃ added : list string,
    args_of "filesystem"
      (servers
         (state_after
            [mkInvocation calm_world PlanningWorkflow "plan";
             mkInvocation failing_backend ResearchWorkflow "topic";
             mkInvocation cancelled_mid_flight CodeDevelopmentWorkflow ∅]
            (initial two_servers)))
    = Some (["/srv"] ++ added)%list.
Proof.
  exact (proj2 (proj2 (proj2
    (registry_kept_over_invocations
       [mkInvocation calm_world PlanningWorkflow "plan";
        mkInvocation failing_backend ResearchWorkflow "topic";
        mkInvocation cancelled_mid_flight CodeDevelopmentWorkflow ∅]
       (initial two_servers)))) ["/srv"] eq_refl).
Defined.

(** X9: over a sequence of invocations the arguments of the filesystem
    provider grow by the working directory of every invocation of a
    workflow other than ResearchWorkflow, in the order of the invocations
    and whatever their outcomes: one more argument per such invocation. *)
Theorem filesystem_args_grow_with_invocations (invs : list Invocation)
    (st : AppState) :
  args_of "filesystem" (servers (state_after invs st))
  = (λ a, a ++ appended_by invs)%list <$> args_of "filesystem" (servers st)
  ∧ length (appended_by invs)
    = length (filter (λ i, updates_registry i) invs)
  ∧ (∀ a a' : list string,
       args_of "filesystem" (servers st) = Some a →
       args_of "filesystem" (servers (state_after invs st)) = Some a' →
       length a'
       = length a + length (filter (λ i, updates_registry i) invs)).
Proof.
  rewrite servers_state_after, args_of_augmentArgs.
  assert (length (appended_by invs)
          = length (filter (λ i, updates_registry i) invs)) as Hlen
    by (unfold appended_by; by rewrite length_fmap).
  split_and!; [done|done|].
  intros a a' Ha. rewrite Ha. simpl. intros [= <-].
  by rewrite length_app, Hlen.
Qed.

(** X9 on three invocations on [two_servers], one of them of
    ResearchWorkflow. *)
Lemma filesystem_args_grow_with_invocations_witness :
  length ["/srv"; "/tmp/x"; "/tmp/x"]
  = length ["/srv"]
    + length
        (filter (λ i, updates_registry i)
           [mkInvocation calm_world PlanningWorkflow "plan";
            mkInvocation failing_backend ResearchWorkflow "topic";
            mkInvocation cancelled_mid_flight CodeDevelopmentWorkflow ∅]).
Proof.
  exact (proj2 (proj2
    (filesystem_args_grow_with_invocations
       [mkInvocation calm_world PlanningWorkflow "plan";
        mkInvocation failing_backend ResearchWorkflow "topic";
        mkInvocation cancelled_mid_flight CodeDevelopmentWorkflow ∅]
       (initial two_servers)))
    ["/srv"] ["/srv"; "/tmp/x"; "/tmp/x"] eq_refl eq_refl).
Defined.


(** ** Reading of the request dictionaries *)

(** X11: each dictionary workflow reads its request through three keys
    only: a key that is present is taken with the text it is bound to, and
    two requests that agree on the three keys give the same invocation,
    whatever else they hold. *)
Theorem request_read_through_three_keys (W : World)
    (d d' : gmap string string) (st : AppState) :
  (d !! "task" = d' !! "task" → d !! "language" = d' !! "language" →
   d !! "requirements" = d' !! "requirements" →
   run W CodeDevelopmentWorkflow d st = run W CodeDevelopmentWorkflow d' st)
  ∧ (d !! "description" = d' !! "description" → d !! "type" = d' !! "type" →
     d !! "priority" = d' !! "priority" →
     run W VIRAOrchestrationWorkflow d st
     = run W VIRAOrchestrationWorkflow d' st)
  ∧ (d !! "operation" = d' !! "operation" → d !! "target" = d' !! "target" →
     d !! "prompt" = d' !! "prompt" →
     run W ClaudeCodeIntegrationWorkflow d st
     = run W ClaudeCodeIntegrationWorkflow d' st)
  ∧ (∀ v1 v2 v3 : string,
       d !! "task" = Some v1 → d !! "language" = Some v2 →
       d !! "requirements" = Some v3 →
       CodeDevelopmentWorkflow_fields d = (v1, v2, v3))
  ∧ (∀ v1 v2 v3 : string,
       d !! "description" = Some v1 → d !! "type" = Some v2 →
       d !! "priority" = Some v3 →
       VIRAOrchestrationWorkflow_fields d = (v1, v2, v3))
  ∧ (∀ v1 v2 v3 : string,
       d !! "operation" = Some v1 → d !! "target" = Some v2 →
       d !! "prompt" = Some v3 →
       ClaudeCodeIntegrationWorkflow_fields d = (v1, v2, v3)).
Proof.
  split_and!.
  - intros H1 H2 H3. cbn [run].
    unfold CodeDevelopmentWorkflow_run, CodeDevelopmentWorkflow_fields,
      dict_get. by rewrite H1, H2, H3.
  - intros H1 H2 H3. cbn [run].
    unfold VIRAOrchestrationWorkflow_run, VIRAOrchestrationWorkflow_fields,
      dict_get. by rewrite H1, H2, H3.
  - intros H1 H2 H3. cbn [run].
    unfold ClaudeCodeIntegrationWorkflow_run,
      ClaudeCodeIntegrationWorkflow_fields, dict_get.
    by rewrite H1, H2, H3.
  - intros v1 v2 v3 H1 H2 H3.
    unfold CodeDevelopmentWorkflow_fields, dict_get. by rewrite H1, H2, H3.
  - intros v1 v2 v3 H1 H2 H3.
    unfold VIRAOrchestrationWorkflow_fields, dict_get.
    by rewrite H1, H2, H3.
  - intros v1 v2 v3 H1 H2 H3.
    unfold ClaudeCodeIntegrationWorkflow_fields, dict_get.
    by rewrite H1, H2, H3.
Qed.

(** X11 on a request with a key that no workflow reads. *)
Lemma request_read_through_three_keys_witness :
  run calm_world CodeDevelopmentWorkflow
    (<["task" := "parser"]> (<["deadline" := "friday"]> ∅))
    (initial two_servers)
  = run calm_world CodeDevelopmentWorkflow (<["task" := "parser"]> ∅)
      (initial two_servers).
Proof.
  exact (proj1 (request_read_through_three_keys calm_world
    (<["task" := "parser"]> (<["deadline" := "friday"]> ∅))
    (<["task" := "parser"]> ∅) (initial two_servers))
    eq_refl eq_refl eq_refl).
Defined.

(** ** Descriptions logged by [main] *)

Lemma description_registered (workflow_id : string) :
  description workflow_id = "Specialized workflow"
  ↔ Runner.registered !! workflow_id = None.
Proof.
  unfold description, dict_get, workflow_descriptions, Runner.registered.
  cbn [list_to_map foldr uncurry].
  destruct (decide (workflow_id = "PlanningWorkflow")) as [->|H1];
    [by vm_compute|].
  destruct (decide (workflow_id = "ResearchWorkflow")) as [->|H2];
    [by vm_compute|].
  destruct (decide (workflow_id = "CodeDevelopmentWorkflow")) as [->|H3];
    [by vm_compute|].
  destruct (decide (workflow_id = "VIRAOrchestrationWorkflow")) as [->|H4];
    [by vm_compute|].
  destruct (decide (workflow_id = "ClaudeCodeIntegrationWorkflow"))
    as [->|H5]; [by vm_compute|].
  by rewrite !lookup_insert_ne, !lookup_empty by done.
Qed.

(** X12: [main] logs the fallback description [Specialized workflow] for
    exactly the workflow ids that are not among the five registered
    classes; the loop logs one pair per id, in the order of the ids, and
    none of the registered workflows gets the fallback. *)
Theorem description_falls_back_for_unregistered_ids
    (workflows : list string) :
  (∀ workflow_id : string,
     description workflow_id = "Specialized workflow"
     ↔ Runner.registered !! workflow_id = None)
  ∧ (main_logged_descriptions workflows).*1 = workflows
  ∧ (Forall (λ workflow_id, is_Some (Runner.registered !! workflow_id))
       workflows →
     Forall (λ logged, logged.2 ≠ "Specialized workflow")
       (main_logged_descriptions workflows)).
Proof.
  split_and!.
  - apply description_registered.
  - unfold main_logged_descriptions. rewrite <- list_fmap_compose.
    by rewrite list_fmap_id.
  - intros Hall. unfold main_logged_descriptions.
    apply Forall_fmap. eapply List.Forall_impl; [|exact Hall].
    intros workflow_id Hreg Hdesc. simpl in Hdesc.
    apply description_registered in Hdesc.
    destruct Hreg as [registered_class Hreg]. congruence.
Qed.

(** X12 on the five registered workflows, in the order of their
    declaration. *)
Lemma description_falls_back_for_unregistered_ids_witness :
  Forall (λ logged : string * string, logged.2 ≠ "Specialized workflow")
    (main_logged_descriptions
       ["PlanningWorkflow"; "ResearchWorkflow"; "CodeDevelopmentWorkflow";
        "VIRAOrchestrationWorkflow"; "ClaudeCodeIntegrationWorkflow"]).
Proof.
  exact (proj2 (proj2 (description_falls_back_for_unregistered_ids
    ["PlanningWorkflow"; "ResearchWorkflow"; "CodeDevelopmentWorkflow";
     "VIRAOrchestrationWorkflow"; "ClaudeCodeIntegrationWorkflow"]))
    ltac:(repeat constructor; by eexists)).
Defined.

(** ** Prompts *)

Lemma string_app_assoc (s1 s2 s3 : string) :
  (s1 ++ s2) ++ s3 = s1 ++ (s2 ++ s3).
Proof.
  induction s1 as [|c s1 IH]; [done|].
  change (String c ((s1 ++ s2) ++ s3) = String c (s1 ++ (s2 ++ s3))).
  by rewrite IH.
Qed.

Lemma string_length_app (s1 s2 : string) :
  String.length (s1 ++ s2) = String.length s1 + String.length s2.
Proof.
  induction s1 as [|c s1 IH]; [done|].
  change (S (String.length (s1 ++ s2))
          = S (String.length s1) + String.length s2).
  by rewrite IH.
Qed.

Lemma string_app_inj_r (s1 s2 suffix : string) :
  s1 ++ suffix = s2 ++ suffix → s1 = s2.
Proof.
  revert s2. induction s1 as [|c s1 IH]; intros [|c' s2] H.
  - done.
  - apply (f_equal String.length) in H.
    change (String.length suffix
            = S (String.length (s2 ++ suffix))) in H.
    rewrite string_length_app in H. lia.
  - apply (f_equal String.length) in H.
    change (S (String.length (s1 ++ suffix))
            = String.length suffix) in H.
    rewrite string_length_app in H. lia.
  - change (String c (s1 ++ suffix) = String c' (s2 ++ suffix)) in H.
    injection H as -> H. f_equal. by apply IH.
Qed.

Lemma string_app_inj_l (prefix s1 s2 : string) :
  prefix ++ s1 = prefix ++ s2 → s1 = s2.
Proof.
  induction prefix as [|c prefix IH]; [done|].
  intros H.
  change (String c (prefix ++ s1) = String c (prefix ++ s2)) in H.
  injection H as H. by apply IH.
Qed.

(** X13: the prompts of PlanningWorkflow and of ResearchWorkflow tell
    their inputs apart: two task descriptions, or two research topics,
    that give the same prompt are the same text. *)
Theorem single_text_prompts_injective (text1 text2 : string) :
  (PlanningWorkflow_message text1 = PlanningWorkflow_message text2 →
   text1 = text2)
  ∧ (ResearchWorkflow_message text1 = ResearchWorkflow_message text2 →
     text1 = text2).
Proof.
  split.
  - unfold PlanningWorkflow_message. intros H.
    apply string_app_inj_l in H. by apply string_app_inj_r in H.
  - unfold ResearchWorkflow_message. intros H.
    apply string_app_inj_l in H. by apply string_app_inj_r in H.
Qed.

(** X13 on two equal task descriptions. *)
Lemma single_text_prompts_injective_witness : "task" = "task".
Proof.
  exact (proj1 (single_text_prompts_injective "task" "task") eq_refl).
Defined.

(** X14: the prompt of CodeDevelopmentWorkflow does not keep the bounds of
    its fields, which are formatted into it as they are: a language that
    ends in the line that opens the requirements gives the same prompt,
    and the same invocation, as the request in which that text is part of
    the requirements. *)
Theorem development_prompt_field_bounds_not_kept (task language tail
    requirements : string) :
  development_prompt task
    (language ++ "
        Requirements: " ++ tail)
    requirements
  = development_prompt task language
      (tail ++ "
        Requirements: " ++ requirements)
  ∧ ∀ (W : World) (d : gmap string string) (st : AppState),
      run W CodeDevelopmentWorkflow
        (<["language" := language ++ "
        Requirements: " ++ tail]>
           (<["requirements" := requirements]> (<["task" := task]> d))) st
      = run W CodeDevelopmentWorkflow
          (<["language" := language]>
             (<["requirements" := tail ++ "
        Requirements: " ++ requirements]> (<["task" := task]> d))) st.
Proof.
  assert (development_prompt task
            (language ++ "
        Requirements: " ++ tail) requirements
          = development_prompt task language
              (tail ++ "
        Requirements: " ++ requirements)) as Hprompt.
  { unfold development_prompt. by rewrite !string_app_assoc. }
  split; [exact Hprompt|].
  intros W d st. cbn [run].
  unfold CodeDevelopmentWorkflow_run, CodeDevelopmentWorkflow_fields,
    dict_get.
  rewrite !lookup_insert_eq.
  rewrite !(lookup_insert_ne _ "language" "requirements") by done.
  rewrite !lookup_insert_eq.
  rewrite !(lookup_insert_ne _ "language" "task") by done.
  rewrite !(lookup_insert_ne _ "requirements" "task") by done.
  rewrite !lookup_insert_eq.
  by rewrite Hprompt.
Qed.

(** ** What the release is told *)

(** X15: once the connection is entered, the last call of the invocation
    is the release of the agent, and it is handed what left the block:
    nothing when the generation returned, and otherwise the very exception
    ([CancelledError] among them) that the attachment or the generation
    raised. *)
Theorem release_is_told_what_left_the_block (W : World) (w : Workflow)
    (x : input_type w) (st : AppState) (a : Agent) :
  scoped_agent w (servers st) = Some a →
  aenter W a = Returns tt →
  ∃ exc : option exn,
    list.last (trace (run W w x st).2) = Some (Aexit (name a) exc)
    ∧ (exc = None →
       attach_llm W a = Returns tt
       ∧ ∃ message params text,
           generate_str W a message params = Returns text)
    ∧ (∀ e : exn, exc = Some e →
         attach_llm W a = Raises e
         ∨ (attach_llm W a = Returns tt
            ∧ ∃ message params,
                generate_str W a message params = Raises e)).
Proof.
  intros Ha Henter.
  destruct (run_shape W w x st a Ha) as (message & params & ->).
  cbn [snd trace]. unfold single_agent_calls. rewrite Henter.
  destruct (attach_llm W a) as [[]|e1] eqn:Hattach.
  - destruct (generate_str W a message params) as [t|e2] eqn:Hgen.
    + exists None. split_and!.
      * by rewrite last_app_cons.
      * intros _. split; [done|]. by exists message, params, t.
      * done.
    + exists (Some e2). split_and!.
      * by rewrite last_app_cons.
      * done.
      * intros e [= <-]. right. split; [done|]. by exists message, params.
  - exists (Some e1). split_and!.
    + by rewrite last_app_cons.
    + done.
    + intros e [= <-]. by left.
Qed.

(** X15 on an invocation that is cancelled while it waits for the
    generation. *)
Lemma release_is_told_what_left_the_block_witness :
  ∃ exc : option exn,
    list.last
      (trace (run cancelled_mid_flight VIRAOrchestrationWorkflow ∅
                (initial two_servers)).2)
    = Some (Aexit "vira_orchestrator" exc)
    ∧ (exc = None →
       attach_llm cancelled_mid_flight (orchestrator_agent two_servers)
       = Returns tt
       ∧ ∃ message params text,
           generate_str cancelled_mid_flight
             (orchestrator_agent two_servers) message params
           = Returns text)
    ∧ (∀ e : exn, exc = Some e →
         attach_llm cancelled_mid_flight (orchestrator_agent two_servers)
         = Raises e
         ∨ (attach_llm cancelled_mid_flight (orchestrator_agent two_servers)
            = Returns tt
            ∧ ∃ message params,
                generate_str cancelled_mid_flight
                  (orchestrator_agent two_servers) message params
                = Raises e)).
Proof.
  exact (release_is_told_what_left_the_block cancelled_mid_flight
           VIRAOrchestrationWorkflow ∅ (initial two_servers)
           (orchestrator_agent two_servers) eq_refl eq_refl).
Defined.
